(** * PDF-to-speech pipeline: a shallow embedding of the Go handler

    The development follows the packages of the repository:
    - [GoStrings], [Filepath]: the few functions of Go's [strings] and
      [path/filepath] packages that the handler calls, on byte strings;
    - [Runtime]: errors, the log, the collaborators (object storage, local
      disk, PDF reader, speech backend) and the monad the code runs in;
    - [Storage]: [DownloadFileToTemp] of [internal/storage];
    - [Pdfprocessor]: [ExtractTextFromPDFFilePath];
    - [Tts]: [SynthesizeLongAudio] and its polling loop;
    - [Pdftospeech]: [processPDFToSpeechHandler] of [function.go];
    - [Vocabulary]: the words of the statements; [Examples]: collaborators
      and inputs to run the code on.

    The properties come after: byte strings and paths, the monad, the
    stages, the ways through the handler, and the claims C1 to C10.

    A Go [string] is a sequence of bytes, which is what Rocq's [string] is. *)

From Stdlib Require Import Ascii String NArith Lia.
From stdpp Require Import base option list strings gmap.

(** ** Go's [strings] package *)

Module GoStrings.

(** [s[n:]] *)
Fixpoint slice_from (n : nat) (s : string) : string :=
  match n, s with
  | O, _ => s
  | S _, EmptyString => EmptyString
  | S m, String _ s' => slice_from m s'
  end.

(** [s[:n]] *)
Fixpoint slice_to (n : nat) (s : string) : string :=
  match n, s with
  | O, _ => EmptyString
  | S _, EmptyString => EmptyString
  | S m, String c s' => String c (slice_to m s')
  end.

(** [len(s) >= len(prefix) && s[:len(prefix)] == prefix] *)
Definition HasPrefix (s prefix : string) : bool :=
  (String.length prefix <=? String.length s)%nat
  && String.eqb (slice_to (String.length prefix) s) prefix.

(** [len(s) >= len(suffix) && s[len(s)-len(suffix):] == suffix] *)
Definition HasSuffix (s suffix : string) : bool :=
  (String.length suffix <=? String.length s)%nat
  && String.eqb (slice_from (String.length s - String.length suffix) s) suffix.

(** [if HasSuffix(s, suffix) { return s[:len(s)-len(suffix)] }; return s] *)
Definition TrimSuffix (s suffix : string) : string :=
  if HasSuffix s suffix
  then slice_to (String.length s - String.length suffix) s
  else s.

(** ['A' <= c && c <= 'Z'], then [c += 'a' - 'A'] *)
Definition lower_byte (c : ascii) : ascii :=
  let n := N_of_ascii c in
  if ((65 <=? n) && (n <=? 90))%N then ascii_of_N (n + 32) else c.

(** [strings.ToLower] on the bytes of [s]: the letters [A]-[Z] become
    [a]-[z], every other byte is kept.  Go also lowers the letters beyond
    ASCII (after decoding UTF-8); no such letter is lowered to one of the
    bytes of [".pdf"], and a byte below 128 is never part of a longer
    encoding, so the only test the handler makes on the result, whether it
    ends in [".pdf"], has the same outcome. *)
Fixpoint ToLower (s : string) : string :=
  match s with
  | EmptyString => EmptyString
  | String c s' => String (lower_byte c) (ToLower s')
  end.

(** *** White space, as [unicode.IsSpace] has it *)

(** The code points of Unicode's [White_Space] property. *)
Definition IsSpace (r : N) : bool :=
  ((9 <=? r) && (r <=? 13) || (r =? 32) || (r =? 133) || (r =? 160)
   || (r =? 5760) || (8192 <=? r) && (r <=? 8202)
   || (r =? 8232) || (r =? 8233) || (r =? 8239) || (r =? 8287)
   || (r =? 12288))%N.

(** [utf8.EncodeRune]: one byte below U+0080, two below U+0800; a surrogate
    or a value beyond U+10FFFF is encoded as U+FFFD; three bytes below
    U+10000, four otherwise. *)
Definition EncodeRune (r : N) : string :=
  if (r <? 128)%N then
    String (ascii_of_N r) EmptyString
  else if (r <? 2048)%N then
    String (ascii_of_N (192 + r / 64))
      (String (ascii_of_N (128 + r mod 64)) EmptyString)
  else
    let r := if ((1114111 <? r) || (55296 <=? r) && (r <=? 57343))%N
             then 65533%N else r in
    if (r <? 65536)%N then
      String (ascii_of_N (224 + r / 4096))
        (String (ascii_of_N (128 + (r / 64) mod 64))
           (String (ascii_of_N (128 + r mod 64)) EmptyString))
    else
      String (ascii_of_N (240 + r / 262144))
        (String (ascii_of_N (128 + (r / 4096) mod 64))
           (String (ascii_of_N (128 + (r / 64) mod 64))
              (String (ascii_of_N (128 + r mod 64)) EmptyString))).

(** The six white-space bytes of the ASCII table ([asciiSpace]). *)
Definition ascii_space (a : N) : bool :=
  ((9 <=? a) && (a <=? 13) || (a =? 32))%N.

(** The two-byte encodings of white space: U+0085 and U+00A0. *)
Definition space2 (a b : N) : bool :=
  ((a =? 194) && ((b =? 133) || (b =? 160)))%N.

(** The three-byte encodings of white space: U+1680, U+2000 to U+200A,
    U+2028, U+2029, U+202F, U+205F and U+3000. *)
Definition space3 (a b c : N) : bool :=
  ((a =? 225) && (b =? 154) && (c =? 128)
   || (a =? 226) && (b =? 128)
      && ((128 <=? c) && (c <=? 138) || (c =? 168) || (c =? 169) || (c =? 175))
   || (a =? 226) && (b =? 129) && (c =? 159)
   || (a =? 227) && (b =? 128) && (c =? 128))%N.

(** [TrimLeftFunc(s, unicode.IsSpace)]: the leading rune is decoded and
    dropped as long as it is white space.  A leading rune is white space
    exactly when the string starts with one of the encodings above (an
    ill-formed or over-long sequence decodes to U+FFFD, which is not). *)
Fixpoint trim_left_space (s : string) : string :=
  match s with
  | EmptyString => EmptyString
  | String a s1 =>
      if ascii_space (N_of_ascii a) then trim_left_space s1
      else
        match s1 with
        | EmptyString => s
        | String b s2 =>
            if space2 (N_of_ascii a) (N_of_ascii b) then trim_left_space s2
            else
              match s2 with
              | EmptyString => s
              | String c s3 =>
                  if space3 (N_of_ascii a) (N_of_ascii b) (N_of_ascii c)
                  then trim_left_space s3
                  else s
              end
        end
  end.

(** The same from the end ([TrimRightFunc]), on the reversed bytes: the last
    rune is white space exactly when the string ends with one of the
    encodings. *)
Fixpoint trim_left_space_rev (s : string) : string :=
  match s with
  | EmptyString => EmptyString
  | String a s1 =>
      if ascii_space (N_of_ascii a) then trim_left_space_rev s1
      else
        match s1 with
        | EmptyString => s
        | String b s2 =>
            if space2 (N_of_ascii b) (N_of_ascii a) then trim_left_space_rev s2
            else
              match s2 with
              | EmptyString => s
              | String c s3 =>
                  if space3 (N_of_ascii c) (N_of_ascii b) (N_of_ascii a)
                  then trim_left_space_rev s3
                  else s
              end
        end
  end.

Definition trim_right_space (s : string) : string :=
  String.rev (trim_left_space_rev (String.rev s)).

(** [strings.TrimSpace]: leading and trailing white space removed. *)
Definition TrimSpace (s : string) : string :=
  trim_right_space (trim_left_space s).

End GoStrings.

(** ** Go's [path/filepath] package, on a system whose separator is [/] *)

Module Filepath.
Import GoStrings.

Definition Separator : ascii := "/"%char.

Definition IsPathSeparator (c : ascii) : bool := Ascii.eqb c Separator.

(** [path[i]], for the loops below; they only read inside the string. *)
Definition at_index (path : string) (i : nat) : ascii :=
  match String.get i path with
  | Some c => c
  | None => zero
  end.

(** [for len(path) > 0 && IsPathSeparator(path[len(path)-1])
       { path = path[0 : len(path)-1] }]: the length that is left of the
    first [n] bytes. *)
Fixpoint strip_trailing (path : string) (n : nat) : nat :=
  match n with
  | O => O
  | S m => if IsPathSeparator (at_index path m) then strip_trailing path m else n
  end.

(** [i := len(path) - 1; for i >= 0 && !IsPathSeparator(path[i]) { i-- }]:
    the value of [i + 1] when the loop ends. *)
Fixpoint last_element_start (path : string) (n : nat) : nat :=
  match n with
  | O => O
  | S m => if IsPathSeparator (at_index path m) then n else last_element_start path m
  end.

(** [filepath.Base]; the volume name is empty on this system. *)
Definition Base (path : string) : string :=
  if String.eqb path "" then "."
  else
    let path1 := slice_to (strip_trailing path (String.length path)) path in
    let path2 :=
      slice_from (last_element_start path1 (String.length path1)) path1 in
    if String.eqb path2 "" then String Separator EmptyString
    else path2.

(** [for i := len(path) - 1; i >= 0 && !IsPathSeparator(path[i]); i--
       { if path[i] == '.' { return path[i:] } }; return ""]: [n] is
    [i + 1]. *)
Fixpoint Ext_loop (path : string) (n : nat) : string :=
  match n with
  | O => EmptyString
  | S m =>
      if IsPathSeparator (at_index path m) then EmptyString
      else if Ascii.eqb (at_index path m) "."%char then slice_from m path
      else Ext_loop path m
  end.

(** [filepath.Ext] *)
Definition Ext (path : string) : string := Ext_loop path (String.length path).

End Filepath.


(** ** Errors, log, collaborators and the monad of the handler *)

Module Runtime.

(** A Go [error]: [errorString] is what [errors.New], [fmt.Errorf] without
    [%w] and the libraries return; [wrapError] is [fmt.Errorf] with [%w],
    holding the formatted message and the error it wraps. *)
Inductive error : Type :=
| errorString (s : string)
| wrapError (msg : string) (err : error).

(** [err.Error()] *)
Definition Error (e : error) : string :=
  match e with
  | errorString s => s
  | wrapError msg _ => msg
  end.

(** [errors.Unwrap] *)
Definition Unwrap (e : error) : option error :=
  match e with
  | errorString _ => None
  | wrapError _ err => Some err
  end.

(** [google.rpc.Status], of which the poller reads the message. *)
Record Status : Type := { Code : N; Message : string }.

(** [anypb.Any] *)
Record Any : Type := { TypeUrl : string; Value : string }.

(** [longrunningpb.Operation] *)
Record Operation : Type := {
  OpName : string;
  Done : bool;
  GetError : option Status;
  GetMetadata : option Any
}.

Inductive AudioEncoding : Type := LINEAR16 | MP3 | OGG_OPUS | MULAW | ALAW.

Inductive SsmlVoiceGender : Type := SSML_UNSPECIFIED | MALE | FEMALE | NEUTRAL.

(** [texttospeechpb.SynthesizeLongAudioRequest], flattened. *)
Record SynthesizeLongAudioRequest : Type := {
  InputText : string;
  Encoding : AudioEncoding;
  SampleRateHertz : N;
  LanguageCode : string;
  SsmlGender : SsmlVoiceGender;
  VoiceName : string;
  OutputGcsUri : string;
  Parent : string
}.

(** The lines of the log, one constructor per [log.Printf] of the code,
    with the values it formats. *)
Inductive logLine : Type :=
| LogReceived (name bucket contentType : string)
| LogSkipNonPDF (name contentType : string)
| LogSkipNotInFolder (name : string)
| LogVoiceDefault
| LogProcessing (name bucket : string)
| LogTarget (uri : string)
| LogUsing (projectNumber location voice : string)
| LogNoText (name : string)
| LogExtractedLength (len : nat)
| LogProcessed (name uri : string)
| LogDownloaded (bucket object path : string)
| LogCleanupError (path : string) (err : error)
| LogCleanedUp (path : string)
| LogPageWarning (page : nat) (path : string) (err : error)
| LogInitiating
| LogStarted (op : string)
| LogMetadataWarning (op : string) (err : error)
| LogMetadata (metadata : string)
| LogCompleted (op : string)
| LogNotYet (op : string).

(** What the handler does that is visible outside: log lines and calls to
    the collaborators. *)
Inductive event : Type :=
| EvLog (l : logLine)
| EvNewReader (bucket object : string)
| EvCreateTemp (pattern : string)
| EvCopy (path : string)
| EvRemove (path : string)
| EvPdfOpen (path : string)
| EvSynthesizeLongAudio (req : SynthesizeLongAudioRequest)
| EvGetOperation (op : string)
| EvSleep (seconds : nat).

(** The caller's [context.Context]: the time, in seconds, at which its
    cancellation signal fires, if it does. *)
Record Context : Type := { cancelAt : option nat }.

(** The collaborators.  The code reaches them through package-level clients
    and library calls; their answers are parameters of the model.  A call
    that takes the context is given whether the context is already
    cancelled; [client_GetOperation] is also given the number of status
    fetches served before. *)
Record Collaborators : Type := {
  obj_NewReader : bool -> string -> string -> option error;
  os_CreateTemp : string -> error + string;
  io_Copy : string -> option error;
  os_Remove : string -> option error;
  pdf_Open : string -> error + list (error + string);
  client_SynthesizeLongAudio :
    bool -> SynthesizeLongAudioRequest -> error + string;
  client_GetOperation : bool -> string -> nat -> error + Operation;
  anypb_UnmarshalTo : Any -> error + string
}.

(** The state the handler runs in: the temporary files on the local disk,
    the time in seconds, and the number of status fetches the speech backend
    has served. *)
Record World : Type := mkWorld {
  files : gset string;
  now : nat;
  polls : nat
}.

(** A computation takes the state and gives a value, the new state and the
    events it produced, in order; [None] when the polling loop is still
    running after the number of iterations it was given. *)
Definition M (A : Type) : Type := World -> option (A * World * list event).

Definition ret {A : Type} (a : A) : M A := fun w => Some (a, w, []).

Definition bind {A B : Type} (m : M A) (k : A -> M B) : M B :=
  fun w =>
    match m w with
    | Some (a, w1, evs1) =>
        match k a w1 with
        | Some (b, w2, evs2) => Some (b, w2, evs1 ++ evs2)
        | None => None
        end
    | None => None
    end.

Definition emit (ev : event) : M unit := fun w => Some (tt, w, [ev]).

Definition log (l : logLine) : M unit := emit (EvLog l).

(** Whether the signal of [ctx] has fired at time [t]. *)
Definition cancelled (ctx : Context) (t : nat) : bool :=
  match cancelAt ctx with
  | Some t0 => (t0 <=? t)%nat
  | None => false
  end.

(** [ctx.Err() != nil] at the present time. *)
Definition ctxDone (ctx : Context) : M bool :=
  fun w => Some (cancelled ctx (now w), w, []).

(** [time.Sleep]: it takes no context and lasts the whole duration. *)
Definition Sleep (seconds : nat) : M unit :=
  fun w =>
    Some (tt, mkWorld (files w) (now w + seconds) (polls w),
          [EvSleep seconds]).

(** [fs.ErrNotExist], and [os.IsNotExist]: the error, or one it wraps. *)
Definition ErrNotExist : error := errorString "file does not exist".

Fixpoint IsNotExist (e : error) : bool :=
  match e with
  | errorString s => String.eqb s "file does not exist"
  | wrapError _ e' => IsNotExist e'
  end.

(** [os.Remove]: a file that is there is removed unless the system refuses;
    a file that is not there is an [ErrNotExist]. *)
Definition Remove (C : Collaborators) (path : string) : M (option error) :=
  fun w =>
    if decide (path ∈ files w) then
      match os_Remove C path with
      | None =>
          Some (None, mkWorld (files w ∖ {[path]}) (now w) (polls w),
                [EvRemove path])
      | Some e => Some (Some e, w, [EvRemove path])
      end
    else
      Some (Some (wrapError ("remove " +:+ path +:+ ": file does not exist")
                    ErrNotExist),
            w, [EvRemove path]).

(** [os.CreateTemp]: on success the file exists. *)
Definition CreateTemp (C : Collaborators) (pattern : string)
  : M (error + string) :=
  fun w =>
    match os_CreateTemp C pattern with
    | inl e => Some (inl e, w, [EvCreateTemp pattern])
    | inr path =>
        Some (inr path, mkWorld (files w ∪ {[path]}) (now w) (polls w),
              [EvCreateTemp pattern])
    end.

(** [defer f()] before [body]: [f] runs when [body] has returned. *)
Definition defer {A : Type} (f : M unit) (body : M A) : M A :=
  bind body (fun r => bind f (fun _ => ret r)).

End Runtime.

Declare Scope go_scope.
Delimit Scope go_scope with go.
Notation "'let*' x := c 'in' k" := (Runtime.bind c (fun x => k))
  (at level 10, x pattern, c at level 100, k at level 200) : go_scope.
Notation "c ;; k" := (Runtime.bind c (fun _ => k))
  (at level 100, k at level 200, right associativity) : go_scope.

Local Open Scope go_scope.

(** ** [internal/storage] *)

Module Storage.
Import GoStrings Filepath Runtime.

Section WithCollaborators.
Variable C : Collaborators.

(** The closure [cleanupFunc] over the name of the temporary file. *)
Definition cleanupFunc (tempFileName : string) : M unit :=
  let* err := Remove C tempFileName in
  match err with
  | Some e =>
      if negb (IsNotExist e) then log (LogCleanupError tempFileName e)
      else log (LogCleanedUp tempFileName)
  | None => log (LogCleanedUp tempFileName)
  end.

(** [DownloadFileToTemp]: the error, or the path of the temporary file
    with the function that cleans it up. *)
Definition DownloadFileToTemp (ctx : Context) (bucketName objectName : string)
  : M (error + string * M unit) :=
  let* cancelled := ctxDone ctx in
  emit (EvNewReader bucketName objectName) ;;
  match obj_NewReader C cancelled bucketName objectName with
  | Some err =>
      ret (inl (wrapError ("NewReader: " +:+ Error err) err))
  | None =>
      let* tempFile := CreateTemp C (Base objectName +:+ "_*.tmp") in
      match tempFile with
      | inl err =>
          ret (inl (wrapError
                      ("failed to create temp file: " +:+ Error err) err))
      | inr tempFileName =>
          emit (EvCopy tempFileName) ;;
          match io_Copy C tempFileName with
          | Some err =>
              Remove C tempFileName ;;
              ret (inl (wrapError
                          ("failed to copy object to temp file: "
                           +:+ Error err) err))
          | None =>
              log (LogDownloaded bucketName objectName tempFileName) ;;
              ret (inr (tempFileName, cleanupFunc tempFileName))
          end
      end
  end.

End WithCollaborators.
End Storage.

(** ** [internal/pdf-to-text/pdfprocessor] *)

Module Pdfprocessor.
Import GoStrings Runtime.

Section WithCollaborators.
Variable C : Collaborators.

(** [for i := 1; i <= numPages; i++]: the pages from number [i] on, the
    text so far in [extractedText]. *)
Fixpoint extract_pages (filePath : string) (i : nat)
    (pages : list (error + string)) (extractedText : string) : M string :=
  match pages with
  | [] => ret extractedText
  | inl err :: rest =>
      log (LogPageWarning i filePath err) ;;
      extract_pages filePath (S i) rest extractedText
  | inr text :: rest =>
      extract_pages filePath (S i) rest (extractedText +:+ text)
  end.

(** [ExtractTextFromPDFFilePath] *)
Definition ExtractTextFromPDFFilePath (filePath : string)
  : M (error + string) :=
  emit (EvPdfOpen filePath) ;;
  match pdf_Open C filePath with
  | inl err =>
      ret (inl (wrapError
                  ("failed to open PDF file " +:+ filePath
                   +:+ " for extraction: " +:+ Error err) err))
  | inr pages =>
      if (length pages =? 0)%nat then ret (inr "")
      else
        let* text := extract_pages filePath 1 pages "" in
        ret (inr text)
  end.

End WithCollaborators.
End Pdfprocessor.

(** ** [internal/tts] *)

Module Tts.
Import GoStrings Runtime.

(** The request [req] that [SynthesizeLongAudio] builds from its
    arguments. *)
Definition request (text projectNumber location outputGCSURI voiceName : string)
  : SynthesizeLongAudioRequest :=
  {| InputText := text;
     Encoding := LINEAR16;
     SampleRateHertz := 16000;
     LanguageCode := "en-US";
     SsmlGender := NEUTRAL;
     VoiceName := voiceName;
     OutputGcsUri := outputGCSURI;
     Parent := "projects/" +:+ projectNumber +:+ "/locations/" +:+ location |}.

Section WithCollaborators.
Variable C : Collaborators.

(** [client.GetOperation(ctx, ...)]: one status fetch. *)
Definition GetOperation (ctx : Context) (name : string)
  : M (error + Operation) :=
  let* cancelled := ctxDone ctx in
  fun w =>
    Some (client_GetOperation C cancelled name (polls w),
          mkWorld (files w) (now w) (S (polls w)),
          [EvGetOperation name]).

(** The [for] loop of [SynthesizeLongAudio]; [n] bounds the number of
    iterations, and [None] is a loop that has not ended by then. *)
Fixpoint poll_loop (n : nat) (ctx : Context) (opName : string)
  : M (option error) :=
  match n with
  | O => fun _ => None
  | S n' =>
      let* latestOp := GetOperation ctx opName in
      match latestOp with
      | inl err =>
          ret (Some (wrapError
                       ("failed to get operation status for " +:+ opName
                        +:+ ": " +:+ Error err) err))
      | inr latestOp =>
          if Done latestOp then
            match GetError latestOp with
            | Some st =>
                ret (Some (errorString
                             ("long audio synthesis operation failed for "
                              +:+ opName +:+ ": " +:+ Message st)))
            | None =>
                match GetMetadata latestOp with
                | Some any =>
                    match anypb_UnmarshalTo C any with
                    | inl err => log (LogMetadataWarning opName err)
                    | inr metadata => log (LogMetadata metadata)
                    end
                | None => ret tt
                end ;;
                log (LogCompleted opName) ;;
                ret None
            end
          else
            log (LogNotYet opName) ;;
            Sleep 10 ;;
            poll_loop n' ctx opName
      end
  end.

(** [SynthesizeLongAudio] *)
Definition SynthesizeLongAudio (n : nat) (ctx : Context)
    (text projectNumber location outputGCSURI voiceName : string)
  : M (option error) :=
  let req := request text projectNumber location outputGCSURI voiceName in
  log LogInitiating ;;
  let* cancelled := ctxDone ctx in
  emit (EvSynthesizeLongAudio req) ;;
  match client_SynthesizeLongAudio C cancelled req with
  | inl err =>
      ret (Some (wrapError
                   ("failed to initiate long audio synthesis: "
                    +:+ Error err) err))
  | inr opName =>
      log (LogStarted opName) ;;
      poll_loop n ctx opName
  end.

End WithCollaborators.
End Tts.

(** ** [function.go] *)

Module Pdftospeech.
Import GoStrings Filepath Runtime.

(** The payload of a storage event. *)
Record StorageObjectData : Type := {
  Bucket : string;
  Name : string;
  ContentType : string
}.

Definition inputFolderPrefix : string := "pdf-input/".
Definition outputFolderPrefix : string := "mp3-output/".

(** [os.Getenv]: the value of the variable, empty when it is not set. *)
Definition Getenv (env : gmap string string) (key : string) : string :=
  default "" (env !! key).

(** The two tests that guard the handler: the name in lower case ends in
    [".pdf"] and the name starts with ["pdf-input/"]. *)
Definition isPDF (name : string) : bool := HasSuffix (ToLower name) ".pdf".
Definition inInputFolder (name : string) : bool := HasPrefix name "pdf-input/".

(** The local [baseFileName] with its extension trimmed. *)
Definition trimmedBaseName (name : string) : string :=
  let baseFileName := Base name in
  TrimSuffix baseFileName (Ext baseFileName).

(** The locals [outputAudioObjectName] and [outputGCSURI]. *)
Definition outputAudioObjectName (name : string) : string :=
  outputFolderPrefix +:+ trimmedBaseName name +:+ ".mp3".

Definition outputGCSURI (e : StorageObjectData) : string :=
  "gs://" +:+ Bucket e +:+ "/" +:+ outputAudioObjectName (Name e).

Definition configError : error :=
  errorString
    "environment variables PROJECT_NUMBER and GCP_LOCATION must be set in the Cloud Function configuration".

Section WithCollaborators.
Variable C : Collaborators.
Variable env : gmap string string.

(** [processPDFToSpeechHandler]; [n] bounds the iterations of the polling
    loop it reaches. *)
Definition processPDFToSpeechHandler (n : nat) (ctx : Context)
    (e : StorageObjectData) : M (option error) :=
  log (LogReceived (Name e) (Bucket e) (ContentType e)) ;;
  if negb (HasSuffix (ToLower (Name e)) ".pdf") then
    log (LogSkipNonPDF (Name e) (ContentType e)) ;;
    ret None
  else if negb (HasPrefix (Name e) "pdf-input/") then
    log (LogSkipNotInFolder (Name e)) ;;
    ret None
  else
    let projectNumber := Getenv env "PROJECT_NUMBER" in
    let location := Getenv env "GCP_LOCATION" in
    if String.eqb projectNumber "" || String.eqb location "" then
      ret (Some configError)
    else
      let* ttsVoiceName :=
        (let ttsVoiceName := Getenv env "TTS_VOICE_NAME" in
         if String.eqb ttsVoiceName "" then
           log LogVoiceDefault ;;
           ret "en-US-Wavenet-D"
         else ret ttsVoiceName) in
      log (LogProcessing (Name e) (Bucket e)) ;;
      log (LogTarget (outputGCSURI e)) ;;
      log (LogUsing projectNumber location ttsVoiceName) ;;
      let* downloaded :=
        Storage.DownloadFileToTemp C ctx (Bucket e) (Name e) in
      match downloaded with
      | inl err =>
          ret (Some (wrapError
                       ("failed to download PDF " +:+ Name e +:+ ": "
                        +:+ Error err) err))
      | inr (tempPDFPath, cleanupTempFile) =>
          defer cleanupTempFile
            (let* extracted :=
               Pdfprocessor.ExtractTextFromPDFFilePath C tempPDFPath in
             match extracted with
             | inl err =>
                 ret (Some (wrapError
                              ("failed to extract text from PDF "
                               +:+ Name e +:+ ": " +:+ Error err) err))
             | inr extractedText =>
                 if String.eqb (TrimSpace extractedText) "" then
                   log (LogNoText (Name e)) ;;
                   ret None
                 else
                   log (LogExtractedLength (String.length extractedText)) ;;
                   let* err :=
                     Tts.SynthesizeLongAudio C n ctx extractedText
                       projectNumber location (outputGCSURI e)
                       ttsVoiceName in
                   match err with
                   | Some err =>
                       ret (Some (wrapError
                                    ("failed to synthesize speech for "
                                     +:+ Name e +:+ ": " +:+ Error err) err))
                   | None =>
                       log (LogProcessed (Name e) (outputGCSURI e)) ;;
                       ret None
                   end
             end)
      end.

End WithCollaborators.
End Pdftospeech.

(** ** [internal/storage]: upload and listing *)

Module StorageObjects.
Import GoStrings Runtime.

(** [storage.ObjectAttrs], by the fields that tell objects apart. *)
Record ObjectAttrs : Type := {
  AttrBucket : string;
  AttrName : string;
  AttrContentType : string;
  AttrSize : N
}.

(** What [UploadFile] and [ListObjectsWithPrefix] do that is visible outside:
    calls on the writer and on the iterator, and the one log line. *)
Inductive call : Type :=
| CallNewWriter (bucket object : string)
| CallSetContentType (contentType : string)
| CallWrite (content : string)
| CallClose
| CallObjects (bucket prefix : string)
| CallNext
| CallLogUploaded (bucket object : string).

(** The object store behind them.  [writer_Write] and [writer_Close] answer
    for the writer of an object opened with a content type; [writer_Close] is
    told whether the write before it failed.  [bucket_Objects] gives what the
    successive calls of [it.Next] answer before [iterator.Done]. *)
Record ObjectStore : Type := {
  writer_Write : Context -> string -> string -> string -> string -> option error;
  writer_Close : Context -> string -> string -> string -> bool -> option error;
  bucket_Objects : Context -> string -> string -> list (error + ObjectAttrs)
}.

(** A value with the calls made to get it. *)
Definition Calls (A : Type) : Type := A * list call.

Definition pure {A : Type} (a : A) : Calls A := (a, []).

Definition did {A : Type} (c : call) (a : A) : Calls A := (a, [c]).

Definition andThen {A B : Type} (m : Calls A) (k : A -> Calls B) : Calls B :=
  let '(a, cs1) := m in
  let '(b, cs2) := k a in
  (b, cs1 ++ cs2).

Section WithStore.
Variable S : ObjectStore.

(** [UploadFile] *)
Definition UploadFile (ctx : Context)
    (bucketName objectName content contentType : string)
  : Calls (option error) :=
  andThen (did (CallNewWriter bucketName objectName) tt) (fun _ =>
  andThen (did (CallSetContentType contentType) tt) (fun _ =>
  andThen (did (CallWrite content)
             (writer_Write S ctx bucketName objectName contentType content))
    (fun written =>
  match written with
  | Some err =>
      andThen (did CallClose
                 (writer_Close S ctx bucketName objectName contentType true))
        (fun _ =>
      pure (Some (wrapError
                    ("failed to write to GCS object " +:+ bucketName +:+ "/"
                     +:+ objectName +:+ ": " +:+ Error err) err)))
  | None =>
      andThen (did CallClose
                 (writer_Close S ctx bucketName objectName contentType false))
        (fun closed =>
      match closed with
      | Some err =>
          pure (Some (wrapError
                        ("failed to close GCS writer for " +:+ bucketName
                         +:+ "/" +:+ objectName +:+ ": " +:+ Error err) err))
      | None => did (CallLogUploaded bucketName objectName) None
      end)
  end))).

(** The [for] loop of [ListObjectsWithPrefix]: [answers] is what the calls of
    [it.Next] still to come answer, [objects] the slice so far. *)
Fixpoint next_loop (prefix : string) (answers : list (error + ObjectAttrs))
    (objects : list ObjectAttrs) : Calls (error + list ObjectAttrs) :=
  match answers with
  | [] => did CallNext (inr objects)
  | inl err :: _ =>
      did CallNext
        (inl (wrapError ("error listing objects with prefix " +:+ prefix
                         +:+ ": " +:+ Error err) err))
  | inr attrs :: rest =>
      andThen (did CallNext tt) (fun _ =>
      next_loop prefix rest (objects ++ [attrs]))
  end.

(** [ListObjectsWithPrefix] *)
Definition ListObjectsWithPrefix (ctx : Context) (bucketName prefix : string)
  : Calls (error + list ObjectAttrs) :=
  andThen (did (CallObjects bucketName prefix) tt) (fun _ =>
  next_loop prefix (bucket_Objects S ctx bucketName prefix) []).

End WithStore.
End StorageObjects.

(** ** Vocabulary of the statements *)

Module Vocabulary.
Import GoStrings Filepath Runtime Pdftospeech.

(** The byte [c] occurs in [s]. *)
Fixpoint contains (c : ascii) (s : string) : bool :=
  match s with
  | EmptyString => false
  | String a s' => Ascii.eqb a c || contains c s'
  end.

(** The UTF-8 text of a sequence of code points. *)
Definition encode_runes (rs : list N) : string :=
  fold_right (fun r acc => EncodeRune r +:+ acc) "" rs.

(** A text that is empty or made of white space only. *)
Definition whitespace_only (text : string) : Prop :=
  ∃ rs, forallb IsSpace rs = true ∧ text = encode_runes rs.

(** The handler skips the notification: it returns [nil] having written
    the line for the event and the line for the skip, and nothing else. *)
Definition skipped (C : Collaborators) (env : gmap string string) (n : nat)
    (ctx : Context) (e : StorageObjectData) (w : World) : Prop :=
  ∃ l, processPDFToSpeechHandler C env n ctx e w
       = Some (None, w,
               [EvLog (LogReceived (Name e) (Bucket e) (ContentType e));
                EvLog l]).

(** The two required settings are there. *)
Definition configured (env : gmap string string) : Prop :=
  Getenv env "PROJECT_NUMBER" ≠ "" ∧ Getenv env "GCP_LOCATION" ≠ "".

(** Kinds of events. *)
Definition is_log (ev : event) : bool :=
  match ev with EvLog _ => true | _ => false end.

Definition is_removal (ev : event) : bool :=
  match ev with EvRemove _ => true | _ => false end.

Definition is_download (ev : event) : bool :=
  match ev with
  | EvNewReader _ _ | EvCreateTemp _ | EvCopy _ => true
  | _ => false
  end.

Definition is_extraction (ev : event) : bool :=
  match ev with EvPdfOpen _ => true | _ => false end.

Definition is_synthesis (ev : event) : bool :=
  match ev with
  | EvSynthesizeLongAudio _ | EvGetOperation _ | EvSleep _ => true
  | _ => false
  end.

(** The events of the polling loop: status fetches, sleeps and log lines. *)
Definition is_polling (ev : event) : bool :=
  match ev with
  | EvGetOperation _ | EvSleep _ | EvLog _ => true
  | _ => false
  end.

(** The synthesis requests among the events. *)
Definition requests (evs : list event) : list SynthesizeLongAudioRequest :=
  omap (fun ev => match ev with
                  | EvSynthesizeLongAudio req => Some req
                  | _ => None
                  end) evs.

(** The events of [k] rounds of the polling loop that found the operation
    not done: a status fetch, the log line and the sleep. *)
Definition cycles (op : string) (k : nat) : list event :=
  concat (replicate k [EvGetOperation op; EvLog (LogNotYet op); EvSleep 10]).

(** The log lines of the last round of the polling loop, when the operation
    is done without error: what decoding the metadata gave. *)
Definition metadata_log (C : Collaborators) (op : string) (o : Operation)
  : list event :=
  match GetMetadata o with
  | Some any =>
      match anypb_UnmarshalTo C any with
      | inl err => [EvLog (LogMetadataWarning op err)]
      | inr metadata => [EvLog (LogMetadata metadata)]
      end
  | None => []
  end.

(** The world after one more status fetch, and after [k] rounds of the
    polling loop that found the operation not done. *)
Definition fetched (w : World) : World :=
  mkWorld (files w) (now w) (S (polls w)).

Definition waited (k : nat) (w : World) : World :=
  mkWorld (files w) (now w + 10 * k) (polls w + k).

(** The voice the handler uses, and the log lines it writes before the
    download, on a name it accepts with the required settings there. *)
Definition voice (env : gmap string string) : string :=
  if String.eqb (Getenv env "TTS_VOICE_NAME") "" then "en-US-Wavenet-D"
  else Getenv env "TTS_VOICE_NAME".

Definition prelude (env : gmap string string) (e : StorageObjectData)
  : list event :=
  [EvLog (LogReceived (Name e) (Bucket e) (ContentType e))]
  ++ (if String.eqb (Getenv env "TTS_VOICE_NAME") "" then [EvLog LogVoiceDefault]
      else [])
  ++ [EvLog (LogProcessing (Name e) (Bucket e));
      EvLog (LogTarget (outputGCSURI e));
      EvLog (LogUsing (Getenv env "PROJECT_NUMBER") (Getenv env "GCP_LOCATION")
               (voice env))].

(** The ways through the handler once the file is downloaded, one per
    [return] of the code: the error or [nil] returned, the world and the
    events, from the world [w1] the download left. *)
Inductive stages_path (C : Collaborators) (env : gmap string string)
    (n : nat) (ctx : Context) (e : StorageObjectData) (path : string)
    (w1 : World) : option error → World → list event → Prop :=
| stage_extract_error (err : error) (logs : list event) :
    Pdfprocessor.ExtractTextFromPDFFilePath C path w1
      = Some (inl err, w1, EvPdfOpen path :: logs) →
    stages_path C env n ctx e path w1
      (Some (wrapError ("failed to extract text from PDF " +:+ Name e
                        +:+ ": " +:+ Error err) err))
      w1 (EvPdfOpen path :: logs)
| stage_no_text (text : string) (logs : list event) :
    Pdfprocessor.ExtractTextFromPDFFilePath C path w1
      = Some (inr text, w1, EvPdfOpen path :: logs) →
    TrimSpace text = "" →
    stages_path C env n ctx e path w1 None w1
      (EvPdfOpen path :: logs ++ [EvLog (LogNoText (Name e))])
| stage_synthesis_error (text : string) (logs : list event) (err : error)
    (w2 : World) (evs3 : list event) :
    Pdfprocessor.ExtractTextFromPDFFilePath C path w1
      = Some (inr text, w1, EvPdfOpen path :: logs) →
    TrimSpace text ≠ "" →
    Tts.SynthesizeLongAudio C n ctx text (Getenv env "PROJECT_NUMBER")
      (Getenv env "GCP_LOCATION") (outputGCSURI e) (voice env) w1
      = Some (Some err, w2, evs3) →
    stages_path C env n ctx e path w1
      (Some (wrapError ("failed to synthesize speech for " +:+ Name e
                        +:+ ": " +:+ Error err) err))
      w2
      (EvPdfOpen path :: logs
       ++ EvLog (LogExtractedLength (String.length text)) :: evs3)
| stage_processed (text : string) (logs : list event)
    (w2 : World) (evs3 : list event) :
    Pdfprocessor.ExtractTextFromPDFFilePath C path w1
      = Some (inr text, w1, EvPdfOpen path :: logs) →
    TrimSpace text ≠ "" →
    Tts.SynthesizeLongAudio C n ctx text (Getenv env "PROJECT_NUMBER")
      (Getenv env "GCP_LOCATION") (outputGCSURI e) (voice env) w1
      = Some (None, w2, evs3) →
    stages_path C env n ctx e path w1 None w2
      (EvPdfOpen path :: logs
       ++ EvLog (LogExtractedLength (String.length text)) :: evs3
       ++ [EvLog (LogProcessed (Name e) (outputGCSURI e))]).

(** The ways through the handler on a name it accepts, with the required
    settings there: the download fails, or the stages above run and the
    deferred clean-up follows. *)
Inductive handler_path (C : Collaborators) (env : gmap string string)
    (n : nat) (ctx : Context) (e : StorageObjectData) (w : World)
  : option error → World → list event → Prop :=
| path_download_error (err : error) (w1 : World) (evs1 : list event) :
    Storage.DownloadFileToTemp C ctx (Bucket e) (Name e) w
      = Some (inl err, w1, evs1) →
    handler_path C env n ctx e w
      (Some (wrapError ("failed to download PDF " +:+ Name e +:+ ": "
                        +:+ Error err) err))
      w1 (prelude env e ++ evs1)
| path_downloaded (path : string) (cleanup : M unit) (w1 : World)
    (evs1 : list event) (r : option error) (w2 : World)
    (evs2 : list event) (w3 : World) (l : logLine) :
    Storage.DownloadFileToTemp C ctx (Bucket e) (Name e) w
      = Some (inr (path, cleanup), w1, evs1) →
    stages_path C env n ctx e path w1 r w2 evs2 →
    Storage.cleanupFunc C path w2 = Some (tt, w3, [EvRemove path; EvLog l]) →
    handler_path C env n ctx e w r w3
      (prelude env e ++ evs1 ++ evs2 ++ [EvRemove path; EvLog l]).

(** The outcome [o] with the events [evs] put before its own. *)
Definition after {A : Type} (evs : list event)
    (o : option (A * World * list event)) : option (A * World * list event) :=
  match o with
  | Some (a, w, evs') => Some (a, w, evs ++ evs')
  | None => None
  end.

End Vocabulary.

(** ** Collaborators and inputs of the examples *)

Module Examples.
Import GoStrings Filepath Runtime Pdftospeech.

Definition notDone (op : string) : Operation :=
  {| OpName := op; Done := false; GetError := None; GetMetadata := None |}.

Definition doneOk (op : string) : Operation :=
  {| OpName := op; Done := true; GetError := None; GetMetadata := None |}.

Definition doneError (op msg : string) : Operation :=
  {| OpName := op; Done := true;
     GetError := Some {| Code := 13; Message := msg |};
     GetMetadata := None |}.

Definition doneWithMetadata (op : string) : Operation :=
  {| OpName := op; Done := true; GetError := None;
     GetMetadata := Some {| TypeUrl := "type.googleapis.com/unknown";
                            Value := "garbled" |} |}.

(** Collaborators that store, create and remove without fault, read the
    given pages from any file, accept any request as operation ["op-1"] and
    never decode metadata; the status fetches are a parameter. *)
Definition collaborators (pages : list (error + string))
    (getOperation : bool → string → nat → error + Operation)
  : Collaborators :=
  {| obj_NewReader := fun _ _ _ => None;
     os_CreateTemp := fun pattern => inr ("/tmp/" +:+ pattern);
     io_Copy := fun _ => None;
     os_Remove := fun _ => None;
     pdf_Open := fun _ => inr pages;
     client_SynthesizeLongAudio := fun _ _ => inr "op-1";
     client_GetOperation := getOperation;
     anypb_UnmarshalTo := fun _ => inl (errorString "mismatched message type") |}.

(** Not done twice, then done with the error ["quota exceeded"]. *)
Definition slow_failure (_ : bool) (op : string) (i : nat)
  : error + Operation :=
  if (i <? 2)%nat then inr (notDone op) else inr (doneError op "quota exceeded").

(** Done at once, with metadata that cannot be decoded. *)
Definition bad_metadata (_ : bool) (op : string) (_ : nat)
  : error + Operation :=
  inr (doneWithMetadata op).

(** Never done; a fetch with a cancelled context fails. *)
Definition attentive (cancelled : bool) (op : string) (_ : nat)
  : error + Operation :=
  if cancelled then inl (errorString "context canceled") else inr (notDone op).

Definition two_pages : list (error + string) :=
  [inr "Hello "; inl (errorString "unreadable page"); inr "world"].

(** Two pages of white space: blanks, then a line feed, a no-break space
    and a line separator. *)
Definition blank_pages : list (error + string) :=
  [inr "  "; inr (EncodeRune 10 +:+ EncodeRune 160 +:+ EncodeRune 8232)].

Definition env_ok : gmap string string :=
  <["PROJECT_NUMBER" := "42"]> (<["GCP_LOCATION" := "us-central1"]> ∅).

Definition report : StorageObjectData :=
  {| Bucket := "docs"; Name := "pdf-input/report.pdf";
     ContentType := "application/pdf" |}.

Definition start : World := mkWorld ∅ 0 0.

Definition background : Context := {| cancelAt := None |}.

End Examples.

(** ** Vocabulary of the further properties *)

Module MoreVocabulary.
Import GoStrings Filepath Runtime Pdftospeech StorageObjects Vocabulary.

(** The text of the pages that could be read, in order. *)
Definition readable_text (pages : list (error + string)) : string :=
  fold_right String.append ""
    (omap (fun p => match p with inr text => Some text | inl _ => None end)
       pages).

(** One warning for each page that could not be read, with its number,
    counted from [first]. *)
Definition page_warnings (filePath : string) (first : nat)
    (pages : list (error + string)) : list event :=
  omap (fun ip => match ip with
                  | (i, inl err) => Some (EvLog (LogPageWarning i filePath err))
                  | (_, inr _) => None
                  end)
    (zip (seq first (length pages)) pages).

(** How many sleeps and status fetches there are among the events. *)
Definition sleeps (evs : list event) : nat :=
  length (List.filter (fun ev => match ev with EvSleep _ => true | _ => false end)
            evs).

Definition fetches (evs : list event) : nat :=
  length (List.filter
            (fun ev => match ev with EvGetOperation _ => true | _ => false end)
            evs).

(** The calls to collaborators among the events: all but the log lines. *)
Definition calls_of (evs : list event) : list event :=
  List.filter (fun ev => negb (is_log ev)) evs.

(** How many times the writer is closed. *)
Definition closes (cs : list call) : nat :=
  length (List.filter (fun c => match c with CallClose => true | _ => false end)
            cs).

(** The error [err] reports the step of the handler that failed, from the
    world [w]: a required setting is missing and [err] is the configuration
    error; or the download failed with [cause]; or, the download done, the
    extraction failed with [cause]; or, the text extracted, the synthesis
    failed with [cause]; and [err] wraps [cause] under the words the handler
    has for that step, the name of the object and a colon. *)
Definition reports_failed_step (C : Collaborators) (env : gmap string string)
    (n : nat) (ctx : Context) (e : StorageObjectData) (w : World)
    (err : error) : Prop :=
  (err = configError
   ∧ (Getenv env "PROJECT_NUMBER" = "" ∨ Getenv env "GCP_LOCATION" = ""))
  ∨ (∃ cause w1 evs1,
       Storage.DownloadFileToTemp C ctx (Bucket e) (Name e) w
         = Some (inl cause, w1, evs1)
       ∧ err = wrapError ("failed to download PDF " +:+ Name e +:+ ": "
                          +:+ Error cause) cause)
  ∨ (∃ path cleanup w1 evs1,
       Storage.DownloadFileToTemp C ctx (Bucket e) (Name e) w
         = Some (inr (path, cleanup), w1, evs1)
       ∧ ((∃ cause evs2,
             Pdfprocessor.ExtractTextFromPDFFilePath C path w1
               = Some (inl cause, w1, evs2)
             ∧ err = wrapError ("failed to extract text from PDF " +:+ Name e
                                +:+ ": " +:+ Error cause) cause)
          ∨ (∃ text evs2 cause w2 evs3,
               Pdfprocessor.ExtractTextFromPDFFilePath C path w1
                 = Some (inr text, w1, evs2)
               ∧ Tts.SynthesizeLongAudio C n ctx text
                   (Getenv env "PROJECT_NUMBER") (Getenv env "GCP_LOCATION")
                   (outputGCSURI e) (voice env) w1
                 = Some (Some cause, w2, evs3)
               ∧ err = wrapError ("failed to synthesize speech for "
                                  +:+ Name e +:+ ": " +:+ Error cause)
                         cause))).

End MoreVocabulary.

(** ** Collaborators of the further examples *)

Module MoreExamples.
Import GoStrings Filepath Runtime Pdftospeech StorageObjects Examples.

(** A store that writes and closes without fault and lists two objects. *)
Definition two_objects : list ObjectAttrs :=
  [{| AttrBucket := "docs"; AttrName := "pdf-input/a.pdf";
      AttrContentType := "application/pdf"; AttrSize := 10 |};
   {| AttrBucket := "docs"; AttrName := "pdf-input/b.pdf";
      AttrContentType := "application/pdf"; AttrSize := 20 |}].

Definition store (write close : option error)
    (answers : list (error + ObjectAttrs)) : ObjectStore :=
  {| writer_Write := fun _ _ _ _ _ => write;
     writer_Close := fun _ _ _ _ _ => close;
     bucket_Objects := fun _ _ _ => answers |}.

(** Collaborators like [collaborators], with the answers of the reader, of
    the copy and of the submission as parameters. *)
Definition faulty (reader copy : option error) (submit : error + string)
    (pages : list (error + string)) : Collaborators :=
  {| obj_NewReader := fun _ _ _ => reader;
     os_CreateTemp := fun pattern => inr ("/tmp/" +:+ pattern);
     io_Copy := fun _ => copy;
     os_Remove := fun _ => None;
     pdf_Open := fun _ => inr pages;
     client_SynthesizeLongAudio := fun _ _ => submit;
     client_GetOperation := fun _ op _ => inr (notDone op);
     anypb_UnmarshalTo := fun _ => inl (errorString "mismatched message type") |}.

Definition unreadable_pages : list (error + string) :=
  [inl (errorString "bad font"); inl (errorString "bad stream")].

End MoreExamples.

Import GoStrings Filepath Runtime Pdftospeech Vocabulary Examples.

(** * Properties *)

(** ** Byte strings *)

Section StringFacts.

Lemma app_cons (c : ascii) (s t : string) :
  String c s +:+ t = String c (s +:+ t).
Proof. reflexivity. Qed.

Lemma app_empty_r (s : string) : s +:+ "" = s.
Proof. induction s as [|c s IH]; [reflexivity|]. by rewrite app_cons, IH. Qed.

Lemma app_assoc' (s t u : string) : (s +:+ t) +:+ u = s +:+ t +:+ u.
Proof.
  induction s as [|c s IH]; [reflexivity|]. by rewrite !app_cons, IH.
Qed.

Lemma string_length_app (s t : string) :
  String.length (s +:+ t) = String.length s + String.length t.
Proof.
  induction s as [|c s IH]; [reflexivity|]. rewrite app_cons. cbn.
  by rewrite IH.
Qed.

Lemma slice_to_app (p s : string) : slice_to (String.length p) (p +:+ s) = p.
Proof.
  induction p as [|c p IH]; [by destruct s|]. rewrite app_cons. cbn.
  by rewrite IH.
Qed.

Lemma slice_from_app (p s : string) :
  slice_from (String.length p) (p +:+ s) = s.
Proof. induction p as [|c p IH]; [reflexivity|]. by rewrite app_cons. Qed.

Lemma slice_to_from (n : nat) (s : string) :
  slice_to n s +:+ slice_from n s = s.
Proof.
  revert s. induction n as [|n IH]; intros [|c s]; try reflexivity.
  cbn [slice_to slice_from]. by rewrite app_cons, IH.
Qed.

Lemma length_slice_to (n : nat) (s : string) :
  n ≤ String.length s → String.length (slice_to n s) = n.
Proof.
  revert s. induction n as [|n IH]; intros [|c s] Hn; cbn in *; try lia.
  rewrite IH; lia.
Qed.

Lemma slice_to_all (s : string) : slice_to (String.length s) s = s.
Proof. induction s as [|c s IH]; [reflexivity|]. cbn. by rewrite IH. Qed.

Lemma HasPrefix_app (s p : string) :
  HasPrefix s p = true ↔ ∃ r, s = p +:+ r.
Proof.
  unfold HasPrefix. rewrite andb_true_iff, Nat.leb_le, String.eqb_eq. split.
  - intros [_ Hp]. exists (slice_from (String.length p) s).
    rewrite <- Hp at 1. by rewrite slice_to_from.
  - intros [r ->]. rewrite string_length_app, slice_to_app. split; [lia|done].
Qed.

Lemma HasSuffix_app (s x : string) :
  HasSuffix s x = true ↔ ∃ r, s = r +:+ x.
Proof.
  unfold HasSuffix. rewrite andb_true_iff, Nat.leb_le, String.eqb_eq. split.
  - intros [_ Hx]. exists (slice_to (String.length s - String.length x) s).
    rewrite <- Hx at 2. by rewrite slice_to_from.
  - intros [r ->]. rewrite string_length_app.
    replace (String.length r + String.length x - String.length x)
      with (String.length r) by lia.
    rewrite slice_from_app. split; [lia|done].
Qed.

Lemma TrimSuffix_app (r x : string) : TrimSuffix (r +:+ x) x = r.
Proof.
  unfold TrimSuffix.
  assert (HasSuffix (r +:+ x) x = true) as -> by (apply HasSuffix_app; eauto).
  rewrite string_length_app.
  replace (String.length r + String.length x - String.length x)
    with (String.length r) by lia.
  apply slice_to_app.
Qed.

Lemma ToLower_app (s t : string) : ToLower (s +:+ t) = ToLower s +:+ ToLower t.
Proof.
  induction s as [|c s IH]; [reflexivity|]. rewrite app_cons. cbn.
  by rewrite IH.
Qed.

Lemma length_ToLower (s : string) : String.length (ToLower s) = String.length s.
Proof. induction s as [|c s IH]; [reflexivity|]. cbn. by rewrite IH. Qed.

Lemma at_index_app_r (p s : string) (j : nat) :
  at_index (p +:+ s) (String.length p + j) = at_index s j.
Proof. induction p as [|c p IH]; [reflexivity|]. exact IH. Qed.

End StringFacts.

(** ** The loops of [filepath.Base] and [filepath.Ext] *)

Section PathFacts.

Lemma contains_at_index (c : ascii) (s : string) (j : nat) :
  contains c s = false → j < String.length s →
  Ascii.eqb (at_index s j) c = false.
Proof.
  revert j. induction s as [|a s IH]; intros j Hc Hj; cbn in *; [lia|].
  apply orb_false_iff in Hc as [Ha Hs].
  destruct j as [|j]; [exact Ha|]. apply IH; [exact Hs|lia].
Qed.

Lemma last_element_start_skip (path : string) (m k : nat) :
  (∀ j, j < k → IsPathSeparator (at_index path (m + j)) = false) →
  last_element_start path (m + k) = last_element_start path m.
Proof.
  induction k as [|k IH]; intros Hk.
  - by rewrite Nat.add_0_r.
  - rewrite Nat.add_succ_r. cbn [last_element_start].
    rewrite Hk by lia. apply IH. intros j Hj. apply Hk. lia.
Qed.

Lemma Ext_loop_skip (path : string) (m k : nat) :
  (∀ j, j < k → IsPathSeparator (at_index path (m + j)) = false
                ∧ Ascii.eqb (at_index path (m + j)) "." = false) →
  Ext_loop path (m + k) = Ext_loop path m.
Proof.
  induction k as [|k IH]; intros Hk.
  - by rewrite Nat.add_0_r.
  - rewrite Nat.add_succ_r. cbn [Ext_loop].
    destruct (Hk k) as [-> ->]; [lia|]. apply IH. intros j Hj. apply Hk. lia.
Qed.

Lemma nonempty_length (s : string) : s ≠ "" → 0 < String.length s.
Proof. destruct s; [done|cbn; lia]. Qed.

(** The base of a path that ends in a non-empty element free of [/]. *)
Lemma Base_last_element (d t : string) :
  t ≠ "" → contains "/" t = false → Base (d +:+ "/" +:+ t) = t.
Proof.
  intros Ht Hsep. pose proof (nonempty_length t Ht) as Hlen.
  set (path := d +:+ "/" +:+ t).
  assert (Hpath : path = (d +:+ "/") +:+ t) by (by rewrite app_assoc').
  assert (Hl : String.length path = String.length (d +:+ "/") + String.length t)
    by (by rewrite Hpath, string_length_app).
  assert (Hfree : ∀ j, j < String.length t →
            IsPathSeparator (at_index path (String.length (d +:+ "/") + j)) = false).
  { intros j Hj. rewrite Hpath, at_index_app_r. unfold IsPathSeparator.
    by apply contains_at_index. }
  unfold Base.
  assert (String.eqb path "" = false) as ->.
  { apply String.eqb_neq. intros E. rewrite E in Hl. cbn in Hl. lia. }
  assert (strip_trailing path (String.length path) = String.length path) as ->.
  { rewrite Hl.
    replace (String.length (d +:+ "/") + String.length t)
      with (S (String.length (d +:+ "/") + (String.length t - 1))) by lia.
    cbn [strip_trailing]. rewrite Hfree by lia. reflexivity. }
  rewrite slice_to_all, Hl, last_element_start_skip by exact Hfree.
  rewrite string_length_app. cbn [String.length]. rewrite Nat.add_1_r.
  cbn [last_element_start].
  assert (at_index path (String.length d) = "/"%char) as ->.
  { unfold path. rewrite <- (Nat.add_0_r (String.length d)).
    by rewrite at_index_app_r. }
  assert (IsPathSeparator "/" = true) as -> by reflexivity.
  replace (S (String.length d)) with (String.length (d +:+ "/"))
    by (rewrite string_length_app; cbn; lia).
  rewrite Hpath, slice_from_app.
  apply String.eqb_neq in Ht. by rewrite Ht.
Qed.

(** The extension of an element that ends in a dot followed by bytes that
    are neither dots nor separators. *)
Lemma Ext_last_dot (stem x : string) :
  contains "." x = false → contains "/" x = false →
  Ext (stem +:+ String "." x) = String "." x.
Proof.
  intros Hdot Hsep. unfold Ext.
  set (path := stem +:+ String "." x).
  assert (Hpath : path = (stem +:+ ".") +:+ x) by (by rewrite app_assoc').
  assert (String.length path = String.length (stem +:+ ".") + String.length x)
    as -> by (by rewrite Hpath, string_length_app).
  rewrite Ext_loop_skip.
  - rewrite string_length_app. cbn [String.length]. rewrite Nat.add_1_r.
    cbn [Ext_loop].
    assert (at_index path (String.length stem) = "."%char) as ->.
    { unfold path. rewrite <- (Nat.add_0_r (String.length stem)).
      by rewrite at_index_app_r. }
    cbn. unfold path. by rewrite slice_from_app.
  - intros j Hj. rewrite Hpath, at_index_app_r. unfold IsPathSeparator.
    split; by apply contains_at_index.
Qed.

(** Every string splits at its last separator. *)
Lemma split_last_separator (s : string) :
  ∃ dir stem, s = dir +:+ stem
              ∧ (dir = "" ∨ ∃ d, dir = d +:+ "/")
              ∧ contains "/" stem = false.
Proof.
  induction s as [|c s (dir & stem & -> & Hdir & Hstem)].
  - exists "", "". auto.
  - destruct Hdir as [-> | [d ->]].
    + destruct (Ascii.eqb c "/") eqn:Hc.
      * apply Ascii.eqb_eq in Hc as ->. exists "/", stem.
        split; [reflexivity|]. split; [right; by exists ""|done].
      * exists "", (String c stem). split; [reflexivity|].
        split; [by left|]. cbn. by rewrite Hc.
    + exists (String c (d +:+ "/")), stem. split; [reflexivity|].
      split; [right; by exists (String c d)|done].
Qed.

End PathFacts.

(** ** Names the handler accepts *)

Section AcceptedNames.

Lemma contains_app (c : ascii) (s t : string) :
  contains c (s +:+ t) = contains c s || contains c t.
Proof.
  induction s as [|a s IH]; [reflexivity|]. rewrite app_cons. cbn.
  by rewrite IH, orb_assoc.
Qed.

Lemma lower_byte_dot (c : ascii) : lower_byte c = "."%char → c = "."%char.
Proof.
  destruct c as [[] [] [] [] [] [] [] []]; vm_compute; intros H;
    first [reflexivity | discriminate H].
Qed.

(** A byte that is lowered to a letter is neither a dot nor a separator. *)
Lemma lower_byte_letter (c l : ascii) :
  lower_byte c = l → l ≠ "."%char → l ≠ "/"%char →
  Ascii.eqb c "." = false ∧ Ascii.eqb c "/" = false.
Proof.
  intros Hl Hdot Hsep. split; apply Ascii.eqb_neq; intros ->; subst l;
    [apply Hdot | apply Hsep]; reflexivity.
Qed.

(** What a string that is [".pdf"] in lower case looks like. *)
Lemma ToLower_pdf_shape (ext : string) :
  ToLower ext = ".pdf" →
  ∃ x, ext = String "." x ∧ contains "." x = false ∧ contains "/" x = false.
Proof.
  destruct ext as [|e0 [|e1 [|e2 [|e3 [|e4 ext]]]]]; cbn [ToLower];
    intros H; try discriminate H.
  injection H as H0 H1 H2 H3.
  apply lower_byte_dot in H0 as ->.
  apply lower_byte_letter in H1 as [D1 S1]; [|done..].
  apply lower_byte_letter in H2 as [D2 S2]; [|done..].
  apply lower_byte_letter in H3 as [D3 S3]; [|done..].
  eexists. split; [reflexivity|]. cbn [contains].
  by rewrite D1, D2, D3, S1, S2, S3.
Qed.

(** A name that passes the two guards is the input prefix, directories, a
    stem free of separators and four bytes that read [".pdf"] in lower
    case. *)
Lemma accepted_shape (name : string) :
  isPDF name = true → inInputFolder name = true →
  ∃ dir stem ext,
    name = inputFolderPrefix +:+ dir +:+ stem +:+ ext
    ∧ (dir = "" ∨ ∃ d, dir = d +:+ "/")
    ∧ contains "/" stem = false
    ∧ ToLower ext = ".pdf".
Proof.
  unfold isPDF, inInputFolder. intros Hpdf [rest ->]%HasPrefix_app.
  destruct (le_lt_dec 4 (String.length rest)) as [Hlen|Hlen].
  - pose proof (slice_to_from (String.length rest - 4) rest) as Hrest.
    set (mid := slice_to (String.length rest - 4) rest) in *.
    set (ext := slice_from (String.length rest - 4) rest) in *.
    assert (Hmid : String.length mid = String.length rest - 4)
      by (apply length_slice_to; lia).
    assert (Hext : String.length ext = 4).
    { pose proof (string_length_app mid ext) as L. rewrite Hrest in L. lia. }
    destruct (split_last_separator mid) as (dir & stem & Hsplit & Hdir & Hstem).
    exists dir, stem, ext.
    rewrite <- (app_assoc' dir stem ext), <- Hsplit, Hrest.
    repeat split; try done.
    unfold HasSuffix in Hpdf.
    apply andb_true_iff in Hpdf as [_ Hpdf%String.eqb_eq].
    rewrite <- Hrest, <- app_assoc', ToLower_app, string_length_app in Hpdf.
    rewrite length_ToLower with (s := ext), Hext in Hpdf.
    change (String.length ".pdf") with 4 in Hpdf.
    replace (String.length (ToLower ("pdf-input/" +:+ mid)) + 4 - 4)
      with (String.length (ToLower ("pdf-input/" +:+ mid))) in Hpdf by lia.
    by rewrite slice_from_app in Hpdf.
  - exfalso.
    destruct rest as [|a [|b [|c [|d rest]]]]; cbn in Hlen; try lia;
      vm_compute in Hpdf; discriminate Hpdf.
Qed.

(** On such a name the handler's trimmed base name is the stem. *)
Lemma trimmedBaseName_stem (dir stem ext : string) :
  (dir = "" ∨ ∃ d, dir = d +:+ "/") →
  contains "/" stem = false → ToLower ext = ".pdf" →
  trimmedBaseName (inputFolderPrefix +:+ dir +:+ stem +:+ ext) = stem.
Proof.
  intros Hdir Hstem (x & -> & Hdot & Hsep)%ToLower_pdf_shape.
  assert (Hbase : Base (inputFolderPrefix +:+ dir +:+ stem +:+ String "." x)
                  = stem +:+ String "." x).
  { assert (Ht : stem +:+ String "." x ≠ "") by (by destruct stem).
    assert (Hc : contains "/" (stem +:+ String "." x) = false).
    { rewrite contains_app, Hstem. cbn. exact Hsep. }
    destruct Hdir as [-> | [d ->]].
    - exact (Base_last_element "pdf-input" _ Ht Hc).
    - rewrite (app_assoc' d), <- (app_assoc' inputFolderPrefix d).
      exact (Base_last_element _ _ Ht Hc). }
  unfold trimmedBaseName. cbv zeta. rewrite Hbase, Ext_last_dot by done.
  apply TrimSuffix_app.
Qed.

End AcceptedNames.

(** ** White space *)

Section WhiteSpace.

Lemma IsSpace_cases (r : N) :
  IsSpace r = true →
  r ∈ [9; 10; 11; 12; 13; 32; 133; 160; 5760; 8192; 8193; 8194; 8195; 8196;
       8197; 8198; 8199; 8200; 8201; 8202; 8232; 8233; 8239; 8287; 12288]%N.
Proof.
  unfold IsSpace. rewrite !orb_true_iff, !andb_true_iff, !N.leb_le, !N.eqb_eq.
  intros H. rewrite !elem_of_cons. lia.
Qed.

Lemma trim_left_space_rune (r : N) (s : string) :
  IsSpace r = true → trim_left_space (EncodeRune r +:+ s) = trim_left_space s.
Proof.
  intros H%IsSpace_cases. rewrite !elem_of_cons, elem_of_nil in H.
  repeat (destruct H as [-> | H]; [reflexivity|]). destruct H.
Qed.

(** The byte patterns that the trimming looks for are the encodings of white
    space, and nothing else. *)
Lemma space_bytes_are_runes :
  (∀ a, ascii_space (N_of_ascii a) = true →
        ∃ r, IsSpace r = true ∧ EncodeRune r = String a "")
  ∧ (∀ a b, space2 (N_of_ascii a) (N_of_ascii b) = true →
            ∃ r, IsSpace r = true ∧ EncodeRune r = String a (String b ""))
  ∧ (∀ a b c,
       space3 (N_of_ascii a) (N_of_ascii b) (N_of_ascii c) = true →
       ∃ r, IsSpace r = true
            ∧ EncodeRune r = String a (String b (String c ""))).
Proof.
  split; [|split].
  - intros a. pose proof (ascii_N_embedding a) as Ha. revert Ha.
    generalize (N_of_ascii a). intros na <-. unfold ascii_space.
    rewrite !orb_true_iff, !andb_true_iff, !N.leb_le, !N.eqb_eq. intros H.
    exists na.
    assert (Hc : na ∈ [9; 10; 11; 12; 13; 32]%N)
      by (rewrite !elem_of_cons; lia).
    rewrite !elem_of_cons, elem_of_nil in Hc.
    repeat (destruct Hc as [-> | Hc]; [split; reflexivity|]). destruct Hc.
  - intros a b. pose proof (ascii_N_embedding a) as Ha.
    pose proof (ascii_N_embedding b) as Hb. revert Ha Hb.
    generalize (N_of_ascii a) (N_of_ascii b). intros na nb <- <-.
    unfold space2.
    rewrite !andb_true_iff, !orb_true_iff, !N.eqb_eq. intros [-> Hb].
    exists ((194 - 192) * 64 + (nb - 128))%N.
    destruct Hb as [-> | ->]; split; reflexivity.
  - intros a b c. pose proof (ascii_N_embedding a) as Ha.
    pose proof (ascii_N_embedding b) as Hb.
    pose proof (ascii_N_embedding c) as Hc'. revert Ha Hb Hc'.
    generalize (N_of_ascii a) (N_of_ascii b) (N_of_ascii c).
    intros na nb nc <- <- <-. unfold space3.
    repeat first [rewrite orb_true_iff | rewrite andb_true_iff].
    rewrite !N.leb_le, !N.eqb_eq. intros H.
    exists ((na - 224) * 4096 + (nb - 128) * 64 + (nc - 128))%N.
    destruct_or!; destruct_and!; subst; try (split; reflexivity).
    assert (Hc : nc ∈ [128; 129; 130; 131; 132; 133; 134; 135; 136; 137; 138;
                       168; 169; 175]%N)
      by (rewrite !elem_of_cons; lia).
    rewrite !elem_of_cons, elem_of_nil in Hc.
    repeat (destruct Hc as [-> | Hc]; [split; reflexivity|]). destruct Hc.
Qed.

(** A text of white space only is trimmed to nothing. *)
Lemma TrimSpace_whitespace_only (text : string) :
  whitespace_only text → TrimSpace text = "".
Proof.
  intros (rs & Hrs & ->). unfold TrimSpace.
  assert (trim_left_space (encode_runes rs) = "") as ->; [|reflexivity].
  induction rs as [|r rs IH]; [reflexivity|].
  cbn in Hrs. apply andb_true_iff in Hrs as [Hr Hrs].
  cbn [encode_runes fold_right]. rewrite trim_left_space_rune by exact Hr.
  exact (IH Hrs).
Qed.

End WhiteSpace.

(** ** The monad *)

Section MonadFacts.
Context {A B : Type}.

Lemma after_nil (o : option (A * World * list event)) : after [] o = o.
Proof. by destruct o as [[[a w] evs]|]. Qed.

Lemma after_after (e1 e2 : list event) (o : option (A * World * list event)) :
  after e1 (after e2 o) = after (e1 ++ e2) o.
Proof. destruct o as [[[a w] evs]|]; [|done]. cbn. by rewrite app_assoc. Qed.

Lemma bind_ret (a : A) (k : A → M B) (w : World) : bind (ret a) k w = k a w.
Proof. unfold bind, ret. by destruct (k a w) as [[[b w2] evs2]|]. Qed.

Lemma bind_emit (ev : event) (k : unit → M B) (w : World) :
  bind (emit ev) k w = after [ev] (k tt w).
Proof. reflexivity. Qed.

Lemma bind_log (l : logLine) (k : unit → M B) (w : World) :
  bind (log l) k w = after [EvLog l] (k tt w).
Proof. reflexivity. Qed.

Lemma bind_ctxDone (ctx : Context) (k : bool → M B) (w : World) :
  bind (ctxDone ctx) k w = k (cancelled ctx (now w)) w.
Proof.
  unfold bind, ctxDone. by destruct (k _ w) as [[[b w2] evs2]|].
Qed.

Lemma bind_choice (b : bool) (l : logLine) (x y : A) (k : A → M B)
    (w : World) :
  bind (if b then bind (log l) (λ _, ret x) else ret y) k w
  = after (if b then [EvLog l] else []) (k (if b then x else y) w).
Proof.
  destruct b; unfold bind, log, emit, ret, after; cbn;
    by destruct (k _ w) as [[[b w2] evs2]|].
Qed.

Lemma bind_run (m : M A) (k : A → M B) (w w1 : World) (a : A)
    (evs : list event) :
  m w = Some (a, w1, evs) → bind m k w = after evs (k a w1).
Proof. intros H. unfold bind. by rewrite H. Qed.

Lemma after_ret (evs : list event) (a : A) (w : World) :
  after evs (ret a w) = Some (a, w, evs).
Proof. cbn. by rewrite app_nil_r. Qed.

Lemma bind_bind {D : Type} (m : M A) (f : A → M B) (g : B → M D) (w : World) :
  bind (bind m f) g w = bind m (λ a, bind (f a) g) w.
Proof.
  unfold bind. destruct (m w) as [[[a w1] evs1]|]; [|done].
  destruct (f a w1) as [[[b w2] evs2]|]; [|done].
  destruct (g b w2) as [[[d w3] evs3]|]; [|done].
  by rewrite app_assoc.
Qed.

End MonadFacts.

(** ** Extraction and download *)

Section StageFacts.
Variable C : Collaborators.

(** Reading the pages changes nothing and writes log lines only. *)
Lemma extract_pages_pure (filePath : string) (pages : list (error + string)) :
  ∀ i acc, ∃ text logs,
    Forall (λ ev, is_log ev = true) logs
    ∧ ∀ w, Pdfprocessor.extract_pages filePath i pages acc w
           = Some (text, w, logs).
Proof.
  induction pages as [|[err|text] pages IH]; intros i acc.
  - exists acc, []. split; [constructor|done].
  - destruct (IH (S i) acc) as (t & logs & Hlogs & Hrun).
    exists t, (EvLog (LogPageWarning i filePath err) :: logs).
    split; [by constructor|]. intros w.
    cbn [Pdfprocessor.extract_pages]. by rewrite bind_log, Hrun.
  - destruct (IH (S i) (acc +:+ text)) as (t & logs & Hlogs & Hrun).
    exists t, logs. split; [done|]. intros w. apply Hrun.
Qed.

Lemma ExtractText_pure (filePath : string) :
  ∃ x logs,
    Forall (λ ev, is_log ev = true) logs
    ∧ ∀ w, Pdfprocessor.ExtractTextFromPDFFilePath C filePath w
           = Some (x, w, EvPdfOpen filePath :: logs).
Proof.
  unfold Pdfprocessor.ExtractTextFromPDFFilePath.
  destruct (pdf_Open C filePath) as [err|pages].
  - eexists _, []. split; [constructor|]. intros w. by rewrite bind_emit.
  - destruct (length pages =? 0).
    + eexists _, []. split; [constructor|]. intros w. by rewrite bind_emit.
    + destruct (extract_pages_pure filePath pages 1 "")
        as (t & logs & Hlogs & Hrun).
      exists (inr t), logs. split; [done|]. intros w.
      rewrite bind_emit, (bind_run _ _ _ _ _ _ (Hrun w)). cbn.
      by rewrite app_nil_r.
Qed.

(** The clean-up function calls [os.Remove] once and writes one log line;
    the file is gone unless the system refused to remove it. *)
Lemma cleanupFunc_run (path : string) (w : World) :
  ∃ w' l,
    Storage.cleanupFunc C path w = Some (tt, w', [EvRemove path; EvLog l])
    ∧ now w' = now w ∧ polls w' = polls w
    ∧ (os_Remove C path = None → path ∉ files w').
Proof.
  unfold Storage.cleanupFunc, bind, Remove.
  destruct (decide (path ∈ files w)) as [Hin|Hin].
  - destruct (os_Remove C path) as [err|] eqn:Hrm.
    + destruct (IsNotExist err); cbn; eexists _, _;
        (split; [reflexivity|]); by repeat split.
    + cbn. eexists _, _. split; [reflexivity|]. cbn.
      repeat split. intros _ [_ Hne]%elem_of_difference.
      apply Hne. by apply elem_of_singleton.
  - cbn. eexists _, _. split; [reflexivity|]. by repeat split.
Qed.

(** A download that succeeds has created the file and removed nothing. *)
Lemma DownloadFileToTemp_ok (ctx : Context) (bucket name path : string)
    (cleanup : M unit) (w w1 : World) (evs1 : list event) :
  Storage.DownloadFileToTemp C ctx bucket name w
    = Some (inr (path, cleanup), w1, evs1) →
  cleanup = Storage.cleanupFunc C path
  ∧ w1 = mkWorld (files w ∪ {[path]}) (now w) (polls w)
  ∧ evs1 = [EvNewReader bucket name; EvCreateTemp (Base name +:+ "_*.tmp");
            EvCopy path; EvLog (LogDownloaded bucket name path)].
Proof.
  unfold Storage.DownloadFileToTemp, bind, ctxDone, emit, log, ret,
    CreateTemp, Remove.
  intros H. repeat (case_match; simplify_eq/=); done.
Qed.

(** A download, whatever its outcome, returns and sends no request. *)
Lemma DownloadFileToTemp_total (ctx : Context) (bucket name : string)
    (w : World) :
  ∃ x w1 evs1,
    Storage.DownloadFileToTemp C ctx bucket name w = Some (x, w1, evs1)
    ∧ Forall (λ ev, is_synthesis ev = false ∧ is_extraction ev = false) evs1
    ∧ match evs1 with EvNewReader b o :: _ => b = bucket ∧ o = name
                 | _ => False end.
Proof.
  unfold Storage.DownloadFileToTemp, bind, ctxDone, emit, log, ret,
    CreateTemp, Remove.
  destruct (obj_NewReader C _ bucket name); cbn;
    [|destruct (os_CreateTemp C _) as [err|tmp]; cbn;
      [|destruct (io_Copy C tmp); cbn;
        [destruct (decide _); [destruct (os_Remove C tmp)|]; cbn|]]];
    eexists _, _, _; (split; [reflexivity|]); (split; [|done]);
    repeat constructor.
Qed.

End StageFacts.

(** ** The polling loop *)

Section PollerFacts.
Variable C : Collaborators.

Lemma GetOperation_run (ctx : Context) (op : string) (w : World) :
  Tts.GetOperation C ctx op w
  = Some (client_GetOperation C (cancelled ctx (now w)) op (polls w),
          fetched w, [EvGetOperation op]).
Proof. reflexivity. Qed.

(** One round of the loop, by what the status fetch answers. *)
Lemma poll_loop_fetch_error (n : nat) (ctx : Context) (op : string)
    (w : World) (err : error) :
  client_GetOperation C (cancelled ctx (now w)) op (polls w) = inl err →
  Tts.poll_loop C (S n) ctx op w
  = Some (Some (wrapError ("failed to get operation status for " +:+ op
                           +:+ ": " +:+ Error err) err),
          fetched w, [EvGetOperation op]).
Proof.
  intros H. cbn [Tts.poll_loop].
  rewrite (bind_run _ _ _ _ _ _ (GetOperation_run ctx op w)), H. reflexivity.
Qed.

Lemma poll_loop_failed (n : nat) (ctx : Context) (op : string)
    (w : World) (o : Operation) (st : Status) :
  client_GetOperation C (cancelled ctx (now w)) op (polls w) = inr o →
  Done o = true → GetError o = Some st →
  Tts.poll_loop C (S n) ctx op w
  = Some (Some (errorString ("long audio synthesis operation failed for "
                             +:+ op +:+ ": " +:+ Message st)),
          fetched w, [EvGetOperation op]).
Proof.
  intros H Hd He. cbn [Tts.poll_loop].
  rewrite (bind_run _ _ _ _ _ _ (GetOperation_run ctx op w)), H, Hd, He.
  reflexivity.
Qed.

Lemma poll_loop_succeeded (n : nat) (ctx : Context) (op : string)
    (w : World) (o : Operation) :
  client_GetOperation C (cancelled ctx (now w)) op (polls w) = inr o →
  Done o = true → GetError o = None →
  Tts.poll_loop C (S n) ctx op w
  = Some (None, fetched w,
          EvGetOperation op :: metadata_log C op o ++ [EvLog (LogCompleted op)]).
Proof.
  intros H Hd He. cbn [Tts.poll_loop].
  rewrite (bind_run _ _ _ _ _ _ (GetOperation_run ctx op w)), H, Hd, He.
  unfold metadata_log.
  destruct (GetMetadata o) as [any|]; [|reflexivity].
  destruct (anypb_UnmarshalTo C any); reflexivity.
Qed.

Lemma poll_loop_not_done (n : nat) (ctx : Context) (op : string)
    (w : World) (o : Operation) :
  client_GetOperation C (cancelled ctx (now w)) op (polls w) = inr o →
  Done o = false →
  Tts.poll_loop C (S n) ctx op w
  = after [EvGetOperation op; EvLog (LogNotYet op); EvSleep 10]
      (Tts.poll_loop C n ctx op (mkWorld (files w) (now w + 10) (S (polls w)))).
Proof.
  intros H Hd. cbn [Tts.poll_loop].
  rewrite (bind_run _ _ _ _ _ _ (GetOperation_run ctx op w)), H, Hd.
  rewrite bind_log, after_after. unfold bind, Sleep. cbn.
  by destruct (Tts.poll_loop C n ctx op _) as [[[r w2] evs2]|].
Qed.

(** [k] rounds that find the operation not done. *)
Lemma poll_loop_cycles (k n : nat) (ctx : Context) (op : string) :
  ∀ w,
    (∀ i, i < k →
       ∃ o, client_GetOperation C (cancelled ctx (now w + 10 * i)) op
              (polls w + i) = inr o ∧ Done o = false) →
    Tts.poll_loop C (k + n) ctx op w
    = after (cycles op k) (Tts.poll_loop C n ctx op (waited k w)).
Proof.
  induction k as [|k IH]; intros w Hk.
  - unfold waited, cycles. cbn. rewrite after_nil.
    rewrite Nat.add_0_r, Nat.add_0_r. by destruct w.
  - destruct (Hk 0) as (o & Ho & Hd); [lia|].
    rewrite Nat.mul_0_r, !Nat.add_0_r in Ho.
    cbn [Nat.add]. rewrite (poll_loop_not_done _ _ _ _ _ Ho Hd), IH.
    + rewrite after_after. unfold waited. cbn [files now polls].
      replace (now w + 10 + 10 * k) with (now w + 10 * S k) by lia.
      replace (S (polls w) + k) with (polls w + S k) by lia.
      reflexivity.
    + intros i Hi. cbn [files now polls].
      destruct (Hk (S i)) as (o' & Ho' & Hd'); [lia|]. exists o'.
      replace (now w + 10 + 10 * i) with (now w + 10 * S i) by lia.
      replace (S (polls w) + i) with (polls w + S i) by lia. done.
Qed.

(** The loop changes no file and only fetches, sleeps and logs. *)
Lemma poll_loop_frame (n : nat) (ctx : Context) (op : string) :
  ∀ w r w' evs,
    Tts.poll_loop C n ctx op w = Some (r, w', evs) →
    files w' = files w ∧ Forall (λ ev, is_polling ev = true) evs.
Proof.
  induction n as [|n IH]; intros w r w' evs; [discriminate|].
  destruct (client_GetOperation C (cancelled ctx (now w)) op (polls w))
    as [err|o] eqn:Hop.
  - rewrite (poll_loop_fetch_error _ _ _ _ _ Hop). intros [= <- <- <-].
    split; [done|]. repeat constructor.
  - destruct (Done o) eqn:Hd; [destruct (GetError o) as [st|] eqn:He|].
    + rewrite (poll_loop_failed _ _ _ _ _ _ Hop Hd He). intros [= <- <- <-].
      split; [done|]. repeat constructor.
    + rewrite (poll_loop_succeeded _ _ _ _ _ Hop Hd He). intros [= <- <- <-].
      split; [done|]. constructor; [done|]. apply Forall_app. split.
      * unfold metadata_log. repeat case_match; repeat constructor.
      * repeat constructor.
    + rewrite (poll_loop_not_done _ _ _ _ _ Hop Hd).
      destruct (Tts.poll_loop C n ctx op _) as [[[r2 w2] evs2]|] eqn:Hrun;
        [|discriminate].
      cbn. intros [= <- <- <-]. apply IH in Hrun as [Hf Hev]. split; [done|].
      repeat (constructor; [done|]). exact Hev.
Qed.

(** [SynthesizeLongAudio]: the request is sent once, first, and the loop
    follows when the backend accepts it. *)
Lemma SynthesizeLongAudio_run (n : nat) (ctx : Context)
    (text pn loc uri v : string) (w : World) :
  Tts.SynthesizeLongAudio C n ctx text pn loc uri v w
  = after [EvLog LogInitiating;
           EvSynthesizeLongAudio (Tts.request text pn loc uri v)]
      match client_SynthesizeLongAudio C (cancelled ctx (now w))
              (Tts.request text pn loc uri v) with
      | inl err =>
          Some (Some (wrapError ("failed to initiate long audio synthesis: "
                                 +:+ Error err) err), w, [])
      | inr op => after [EvLog (LogStarted op)] (Tts.poll_loop C n ctx op w)
      end.
Proof.
  unfold Tts.SynthesizeLongAudio. cbv zeta.
  rewrite bind_log, bind_ctxDone, bind_emit, after_after.
  destruct (client_SynthesizeLongAudio C _ _); [reflexivity|].
  by rewrite bind_log.
Qed.

Lemma SynthesizeLongAudio_frame (n : nat) (ctx : Context)
    (text pn loc uri v : string) (w w' : World) (r : option error)
    (evs : list event) :
  Tts.SynthesizeLongAudio C n ctx text pn loc uri v w = Some (r, w', evs) →
  files w' = files w
  ∧ ∃ evs', evs = EvLog LogInitiating
                  :: EvSynthesizeLongAudio (Tts.request text pn loc uri v)
                  :: evs'
            ∧ Forall (λ ev, is_polling ev = true) evs'.
Proof.
  rewrite SynthesizeLongAudio_run.
  destruct (client_SynthesizeLongAudio C _ _) as [err|op].
  - cbn. intros [= <- <- <-]. split; [done|]. by exists [].
  - destruct (Tts.poll_loop C n ctx op w) as [[[r2 w2] evs2]|] eqn:Hrun;
      [|discriminate].
    cbn. intros [= <- <- <-]. apply poll_loop_frame in Hrun as [Hf Hev].
    split; [done|]. eexists. split; [reflexivity|]. by constructor.
Qed.

End PollerFacts.

(** ** The ways through the handler *)

Section HandlerFacts.
Variable C : Collaborators.
Variable env : gmap string string.

(** The handler up to the download, on a name it accepts with the required
    settings there. *)
Ltac to_download e Hpdf Hin Hpn Hloc :=
  unfold processPDFToSpeechHandler;
  rewrite Hpdf, Hin, Hpn, Hloc; cbn [negb orb];
  rewrite bind_log, bind_choice, !bind_log, !after_after;
  fold (voice env);
  match goal with
  | |- context [after ?l _] =>
      replace l with (prelude env e)
        by (unfold prelude; by rewrite <- !app_assoc)
  end.

Ltac events_eq :=
  unfold prelude;
  repeat first [rewrite <- app_assoc | rewrite <- app_comm_cons
               | rewrite app_nil_l];
  reflexivity.

Lemma handler_path_events (n : nat) (ctx : Context) (e : StorageObjectData)
    (w w' : World) (r : option error) (evs evs' : list event) :
  handler_path C env n ctx e w r w' evs' → evs = evs' →
  handler_path C env n ctx e w r w' evs.
Proof. by intros H ->. Qed.

Lemma handler_path_sound (n : nat) (ctx : Context) (e : StorageObjectData)
    (w w' : World) (r : option error) (evs : list event) :
  isPDF (Name e) = true → inInputFolder (Name e) = true → configured env →
  processPDFToSpeechHandler C env n ctx e w = Some (r, w', evs) →
  handler_path C env n ctx e w r w' evs.
Proof.
  unfold isPDF, inInputFolder.
  intros Hpdf Hin [Hpn%String.eqb_neq Hloc%String.eqb_neq].
  to_download e Hpdf Hin Hpn Hloc.
  destruct (DownloadFileToTemp_total C ctx (Bucket e) (Name e) w)
    as (x & w1 & evs1 & Hdl & _).
  rewrite (bind_run _ _ _ _ _ _ Hdl), after_after.
  destruct x as [err|[path cleanup]].
  { rewrite after_ret. intros [= <- <- <-]. by constructor. }
  destruct (DownloadFileToTemp_ok _ _ _ _ _ _ _ _ _ Hdl) as (-> & _ & _).
  unfold defer. rewrite bind_bind.
  destruct (ExtractText_pure C path) as (x & logs & _ & Hx).
  rewrite (bind_run _ _ _ _ _ _ (Hx w1)), after_after.
  destruct x as [err|text].
  { rewrite bind_ret.
    destruct (cleanupFunc_run C path w1) as (w3 & l & Hc & _).
    rewrite (bind_run _ _ _ _ _ _ Hc), after_after, after_ret.
    intros [= <- <- <-].
    eapply handler_path_events.
    - eapply path_downloaded; [exact Hdl| |exact Hc].
      apply stage_extract_error, Hx.
    - events_eq. }
  destruct (String.eqb (TrimSpace text) "") eqn:Hblank.
  { apply String.eqb_eq in Hblank.
    rewrite bind_bind, bind_log, bind_ret, after_after.
    destruct (cleanupFunc_run C path w1) as (w3 & l & Hc & _).
    rewrite (bind_run _ _ _ _ _ _ Hc), after_after, after_ret.
    intros [= <- <- <-].
    eapply handler_path_events.
    - eapply path_downloaded; [exact Hdl| |exact Hc].
      apply (stage_no_text _ _ _ _ _ _ _ text logs); [apply Hx|done].
    - events_eq. }
  apply String.eqb_neq in Hblank.
  rewrite bind_bind, bind_log, after_after, bind_bind.
  destruct (Tts.SynthesizeLongAudio C n ctx text
              (Getenv env "PROJECT_NUMBER") (Getenv env "GCP_LOCATION")
              (outputGCSURI e) (voice env) w1)
    as [[[rs w2] evs3]|] eqn:Hs; [|by unfold bind; rewrite Hs].
  rewrite (bind_run _ _ _ _ _ _ Hs), after_after.
  destruct (cleanupFunc_run C path w2) as (w3 & l & Hc & _).
  destruct rs as [err|].
  - rewrite bind_ret, (bind_run _ _ _ _ _ _ Hc), after_after, after_ret.
    intros [= <- <- <-].
    eapply handler_path_events.
    + eapply path_downloaded; [exact Hdl| |exact Hc].
      apply (stage_synthesis_error _ _ _ _ _ _ _ text logs);
        [apply Hx|done..].
    + events_eq.
  - rewrite bind_bind, bind_log, bind_ret, after_after,
      (bind_run _ _ _ _ _ _ Hc), after_after, after_ret.
    intros [= <- <- <-].
    eapply handler_path_events.
    + eapply path_downloaded; [exact Hdl| |exact Hc].
      apply (stage_processed _ _ _ _ _ _ _ text logs); [apply Hx|done..].
    + events_eq.
Qed.

Lemma handler_path_complete (n : nat) (ctx : Context)
    (e : StorageObjectData) (w w' : World) (r : option error)
    (evs : list event) :
  isPDF (Name e) = true → inInputFolder (Name e) = true → configured env →
  handler_path C env n ctx e w r w' evs →
  processPDFToSpeechHandler C env n ctx e w = Some (r, w', evs).
Proof.
  unfold isPDF, inInputFolder.
  intros Hpdf Hin [Hpn%String.eqb_neq Hloc%String.eqb_neq] Hpath.
  to_download e Hpdf Hin Hpn Hloc.
  destruct Hpath as [err w1 evs1 Hdl|path cleanup w1 evs1 r w2 evs2 w3 l Hdl Hst Hc].
  { by rewrite (bind_run _ _ _ _ _ _ Hdl), after_after, after_ret. }
  destruct (DownloadFileToTemp_ok _ _ _ _ _ _ _ _ _ Hdl) as (-> & _ & _).
  rewrite (bind_run _ _ _ _ _ _ Hdl), after_after.
  unfold defer. rewrite bind_bind.
  destruct Hst as [err logs Hx|text logs Hx Hblank|text logs err w2 evs3 Hx Hblank Hs
                  |text logs w2 evs3 Hx Hblank Hs];
    rewrite (bind_run _ _ _ _ _ _ Hx), after_after.
  - rewrite bind_ret, (bind_run _ _ _ _ _ _ Hc), after_after, after_ret.
    f_equal. f_equal. events_eq.
  - apply String.eqb_eq in Hblank. rewrite Hblank.
    rewrite bind_bind, bind_log, bind_ret, after_after,
      (bind_run _ _ _ _ _ _ Hc), after_after, after_ret.
    f_equal. f_equal. events_eq.
  - apply String.eqb_neq in Hblank. rewrite Hblank.
    rewrite bind_bind, bind_log, after_after, bind_bind,
      (bind_run _ _ _ _ _ _ Hs), after_after, bind_ret,
      (bind_run _ _ _ _ _ _ Hc), after_after, after_ret.
    f_equal. f_equal. events_eq.
  - apply String.eqb_neq in Hblank. rewrite Hblank.
    rewrite bind_bind, bind_log, after_after, bind_bind,
      (bind_run _ _ _ _ _ _ Hs), after_after, bind_bind, bind_log, bind_ret,
      after_after, (bind_run _ _ _ _ _ _ Hc), after_after, after_ret.
    f_equal. f_equal. events_eq.
Qed.

End HandlerFacts.

(** ** What the stages leave behind *)

Section Frames.
Variable C : Collaborators.
Variable env : gmap string string.

Lemma ExtractText_events (filePath : string) (w w' : World)
    (x : error + string) (evs : list event) :
  Pdfprocessor.ExtractTextFromPDFFilePath C filePath w = Some (x, w', evs) →
  w' = w ∧ ∃ logs, evs = EvPdfOpen filePath :: logs
                   ∧ Forall (λ ev, is_log ev = true) logs.
Proof.
  destruct (ExtractText_pure C filePath) as (x0 & logs & Hlogs & Hx).
  rewrite Hx. intros [= <- <- <-]. eauto.
Qed.

Lemma requests_app (evs1 evs2 : list event) :
  requests (evs1 ++ evs2) = requests evs1 ++ requests evs2.
Proof. apply omap_app. Qed.

Lemma requests_none (evs : list event) :
  Forall (λ ev, is_synthesis ev = false) evs → requests evs = [].
Proof.
  induction 1 as [|ev evs Hev _ IH]; [done|].
  destruct ev; try discriminate Hev; exact IH.
Qed.

Lemma requests_polling (evs : list event) :
  Forall (λ ev, is_polling ev = true) evs → requests evs = [].
Proof.
  induction 1 as [|ev evs Hev _ IH]; [done|].
  destruct ev; try discriminate Hev; exact IH.
Qed.

Lemma logs_quiet (P : event → Prop) (logs : list event) :
  (∀ l, P (EvLog l)) →
  Forall (λ ev, is_log ev = true) logs → Forall P logs.
Proof.
  intros HP. induction 1 as [|ev evs Hev _ IH]; constructor; [|done].
  destruct ev; try discriminate Hev. apply HP.
Qed.

Lemma polling_quiet (P : event → Prop) (evs : list event) :
  (∀ l, P (EvLog l)) → (∀ op, P (EvGetOperation op)) → (∀ s, P (EvSleep s)) →
  Forall (λ ev, is_polling ev = true) evs → Forall P evs.
Proof.
  intros HL HG HS. induction 1 as [|ev evs Hev _ IH]; constructor; [|done].
  destruct ev; try discriminate Hev; auto.
Qed.

Lemma prelude_logs (e : StorageObjectData) :
  Forall (λ ev, is_log ev = true) (prelude env e).
Proof. unfold prelude. destruct (String.eqb _ _); repeat constructor. Qed.

(** The stages after the download touch no file, remove nothing, download
    nothing, and send at most one request, to the handler's target. *)
Lemma stages_path_frame (n : nat) (ctx : Context) (e : StorageObjectData)
    (path : string) (w1 w2 : World) (r : option error) (evs2 : list event) :
  stages_path C env n ctx e path w1 r w2 evs2 →
  files w2 = files w1
  ∧ Forall (λ ev, is_removal ev = false ∧ is_download ev = false) evs2
  ∧ Forall (λ req, OutputGcsUri req = outputGCSURI e) (requests evs2).
Proof.
  assert (Hq : ∀ logs, Forall (λ ev, is_log ev = true) logs →
            Forall (λ ev, is_removal ev = false ∧ is_download ev = false) logs).
  { intros logs. by apply logs_quiet. }
  assert (Hp : ∀ evs, Forall (λ ev, is_polling ev = true) evs →
            Forall (λ ev, is_removal ev = false ∧ is_download ev = false) evs).
  { intros evs. by apply polling_quiet. }
  assert (Hn : ∀ logs, Forall (λ ev, is_log ev = true) logs → requests logs = []).
  { intros logs Hl. apply requests_none. revert Hl. by apply logs_quiet. }
  intros [err logs Hx|text logs Hx Hblank|text logs err w2' evs3 Hx Hblank Hs
         |text logs w2' evs3 Hx Hblank Hs];
    apply ExtractText_events in Hx as (_ & logs' & [= <-] & Hlogs);
    try (apply SynthesizeLongAudio_frame in Hs as (Hf & evs' & -> & Hev)).
  - split; [done|]. split; [constructor; [done|by apply Hq]|].
    cbn. rewrite Hn by done. constructor.
  - split; [done|]. split.
    + constructor; [done|]. apply Forall_app. split; [by apply Hq|].
      by repeat constructor.
    + cbn. rewrite requests_app, Hn by done. constructor.
  - split; [done|]. split.
    + constructor; [done|]. apply Forall_app. split; [by apply Hq|].
      repeat (constructor; [done|]). by apply Hp.
    + cbn. rewrite requests_app, Hn by done. cbn.
      rewrite requests_polling by done. by repeat constructor.
  - split; [done|]. split.
    + constructor; [done|]. apply Forall_app. split; [by apply Hq|].
      repeat (constructor; [done|]). apply Forall_app.
      split; [by apply Hp|by repeat constructor].
    + cbn. rewrite requests_app, Hn by done. cbn.
      rewrite requests_app, requests_polling by done.
      by repeat constructor.
Qed.

(** Without one of the required settings the handler returns at once. *)
Lemma handler_config_error (n : nat) (ctx : Context) (e : StorageObjectData)
    (w : World) :
  isPDF (Name e) = true → inInputFolder (Name e) = true →
  Getenv env "PROJECT_NUMBER" = "" ∨ Getenv env "GCP_LOCATION" = "" →
  processPDFToSpeechHandler C env n ctx e w
  = Some (Some configError, w,
          [EvLog (LogReceived (Name e) (Bucket e) (ContentType e))]).
Proof.
  unfold isPDF, inInputFolder. intros Hpdf Hin Hcfg.
  unfold processPDFToSpeechHandler. rewrite Hpdf, Hin. cbn [negb].
  assert (String.eqb (Getenv env "PROJECT_NUMBER") ""
          || String.eqb (Getenv env "GCP_LOCATION") "" = true) as ->.
  { apply orb_true_iff. by rewrite !String.eqb_eq. }
  reflexivity.
Qed.

End Frames.

(** * The claims *)

(** ** Event filter and output name *)

(** C1.  A notification whose name does not end in [".pdf"], compared in
    lower case, or does not start with ["pdf-input/"], is skipped: the handler
    returns [nil], leaves the world as it was and does nothing but write two
    log lines, so no download, no extraction and no synthesis. *)
Theorem skip_is_noop_success (C : Collaborators) (env : gmap string string)
    (n : nat) (ctx : Context) (e : StorageObjectData) (w : World) :
  isPDF (Name e) = false ∨ inInputFolder (Name e) = false →
  processPDFToSpeechHandler C env n ctx e w
  = Some (None, w,
          [EvLog (LogReceived (Name e) (Bucket e) (ContentType e));
           EvLog (if isPDF (Name e) then LogSkipNotInFolder (Name e)
                  else LogSkipNonPDF (Name e) (ContentType e))]).
Proof.
  unfold isPDF, inInputFolder, processPDFToSpeechHandler. intros H.
  destruct (HasSuffix (ToLower (Name e)) ".pdf"); cbn [negb].
  - destruct H as [H|H]; [discriminate H|]. rewrite H. reflexivity.
  - reflexivity.
Qed.

Lemma skip_is_noop_success_witness :
  (isPDF "pdf-input/notes.txt" = false ∨ inInputFolder "pdf-input/notes.txt" = false)
  ∧ processPDFToSpeechHandler (collaborators two_pages slow_failure) env_ok 0
      background
      {| Bucket := "docs"; Name := "pdf-input/notes.txt";
         ContentType := "text/plain" |} start
    = Some (None, start,
            [EvLog (LogReceived "pdf-input/notes.txt" "docs" "text/plain");
             EvLog (LogSkipNonPDF "pdf-input/notes.txt" "text/plain")]).
Proof.
  split; [left; reflexivity|].
  apply (skip_is_noop_success (collaborators two_pages slow_failure) env_ok 0
           background
           {| Bucket := "docs"; Name := "pdf-input/notes.txt";
              ContentType := "text/plain" |} start).
  left. reflexivity.
Defined.

(** C2.  A name the handler accepts is the input prefix, directories, a stem
    without separator and an extension that reads [".pdf"]; the output name
    is ["mp3-output/"], the stem and [".mp3"].  For ["pdf-input/report.pdf"]
    it is ["mp3-output/report.mp3"]. *)
Theorem output_name_of_accepted (name : string) :
  isPDF name = true → inInputFolder name = true →
  (∃ dir stem ext,
     name = "pdf-input/" +:+ dir +:+ stem +:+ ext
     ∧ (dir = "" ∨ HasSuffix dir "/" = true)
     ∧ contains "/" stem = false
     ∧ ToLower ext = ".pdf"
     ∧ outputAudioObjectName name = "mp3-output/" +:+ stem +:+ ".mp3")
  ∧ outputAudioObjectName "pdf-input/report.pdf" = "mp3-output/report.mp3".
Proof.
  intros Hpdf Hin. split; [|reflexivity].
  destruct (accepted_shape name Hpdf Hin) as (dir & stem & ext & -> & Hdir & Hstem & Hext).
  exists dir, stem, ext. split; [reflexivity|]. split.
  { destruct Hdir as [->|[d ->]]; [by left|right]. apply HasSuffix_app. eauto. }
  split; [done|]. split; [done|].
  unfold outputAudioObjectName. by rewrite trimmedBaseName_stem.
Qed.

Lemma output_name_of_accepted_witness :
  isPDF "pdf-input/2024/Annual Report.PDF" = true
  ∧ inInputFolder "pdf-input/2024/Annual Report.PDF" = true
  ∧ (∃ dir stem ext,
       "pdf-input/2024/Annual Report.PDF" = "pdf-input/" +:+ dir +:+ stem +:+ ext
       ∧ (dir = "" ∨ HasSuffix dir "/" = true)
       ∧ contains "/" stem = false
       ∧ ToLower ext = ".pdf"
       ∧ outputAudioObjectName "pdf-input/2024/Annual Report.PDF"
         = "mp3-output/" +:+ stem +:+ ".mp3")
  ∧ outputAudioObjectName "pdf-input/report.pdf" = "mp3-output/report.mp3".
Proof.
  split; [reflexivity|]. split; [reflexivity|].
  apply (output_name_of_accepted "pdf-input/2024/Annual Report.PDF");
    reflexivity.
Defined.

Section HandlerClaims.
Variable C : Collaborators.
Variable env : gmap string string.

Lemma configured_dec :
  configured env
  ∨ (Getenv env "PROJECT_NUMBER" = "" ∨ Getenv env "GCP_LOCATION" = "").
Proof.
  unfold configured.
  destruct (decide (Getenv env "PROJECT_NUMBER" = ""));
    destruct (decide (Getenv env "GCP_LOCATION" = "")); auto.
Qed.

Lemma length_prelude (e : StorageObjectData) : 4 ≤ length (prelude env e).
Proof. unfold prelude. destruct (String.eqb _ _); cbn; lia. Qed.

(** On an accepted name with the settings there, the first thing the
    handler does after its log lines is to open the object. *)
Lemma handler_path_starts_download (n : nat) (ctx : Context)
    (e : StorageObjectData) (w w' : World) (r : option error)
    (evs : list event) :
  handler_path C env n ctx e w r w' evs →
  ∃ rest, evs = prelude env e ++ EvNewReader (Bucket e) (Name e) :: rest.
Proof.
  destruct (DownloadFileToTemp_total C ctx (Bucket e) (Name e) w)
    as (x & w1 & evs1 & Hdl & _ & Hfirst).
  destruct evs1 as [|[] evs1]; try done. destruct Hfirst as [-> ->].
  intros [err w1' evs1' Hdl'|path cleanup w1' evs1' r' w2 evs2 w3 l Hdl' _ _];
    rewrite Hdl in Hdl'; simplify_eq; eauto.
Qed.

(** C3, as the code has it.  A name that passes the two guards is accepted
    also when nothing is left of its base name once the extension is
    trimmed, as for ["pdf-input/.pdf"]: the output name is then
    ["mp3-output/.mp3"], the handler does not skip the notification, and with
    the required settings there it goes on to open the object. *)
Theorem empty_base_name_is_processed (n : nat) (ctx : Context)
    (e : StorageObjectData) (w : World) :
  isPDF (Name e) = true → inInputFolder (Name e) = true →
  trimmedBaseName (Name e) = "" →
  outputAudioObjectName (Name e) = "mp3-output/.mp3"
  ∧ ¬ skipped C env n ctx e w
  ∧ (configured env →
     ∀ r w' evs,
       processPDFToSpeechHandler C env n ctx e w = Some (r, w', evs) →
       ∃ rest, evs = prelude env e ++ EvNewReader (Bucket e) (Name e) :: rest).
Proof.
  intros Hpdf Hin Hstem. split; [|split].
  - unfold outputAudioObjectName. by rewrite Hstem.
  - intros [l Hl]. destruct configured_dec as [Hcfg|Hcfg].
    + apply handler_path_sound in Hl; [|done..].
      apply handler_path_starts_download in Hl as [rest Hl].
      apply (f_equal length) in Hl. rewrite length_app in Hl.
      pose proof (length_prelude e) as Hp. revert Hl Hp.
      generalize (length (prelude env e)). cbn. lia.
    + rewrite handler_config_error in Hl by done. discriminate Hl.
  - intros Hcfg r w' evs Hrun.
    apply handler_path_sound in Hrun; [|done..].
    by apply handler_path_starts_download in Hrun.
Qed.

End HandlerClaims.

(** C3, as the claim has it, fails: on ["pdf-input/.pdf"], which passes both
    guards and has nothing left of its base name, the handler does not
    skip. *)
Lemma empty_base_name_counterexample :
  isPDF "pdf-input/.pdf" = true
  ∧ inInputFolder "pdf-input/.pdf" = true
  ∧ trimmedBaseName "pdf-input/.pdf" = ""
  ∧ ¬ skipped (collaborators two_pages slow_failure) env_ok 3 background
        {| Bucket := "docs"; Name := "pdf-input/.pdf";
           ContentType := "application/pdf" |} start.
Proof.
  split; [reflexivity|]. split; [reflexivity|]. split; [reflexivity|].
  intros [l Hl]. vm_compute in Hl. discriminate Hl.
Qed.

Lemma empty_base_name_is_processed_witness :
  isPDF "pdf-input/.pdf" = true
  ∧ inInputFolder "pdf-input/.pdf" = true
  ∧ trimmedBaseName "pdf-input/.pdf" = ""
  ∧ outputAudioObjectName "pdf-input/.pdf" = "mp3-output/.mp3"
  ∧ ¬ skipped (collaborators two_pages slow_failure) env_ok 3 background
        {| Bucket := "docs"; Name := "pdf-input/.pdf";
           ContentType := "application/pdf" |} start.
Proof.
  split; [reflexivity|]. split; [reflexivity|]. split; [reflexivity|].
  destruct (empty_base_name_is_processed
              (collaborators two_pages slow_failure) env_ok 3 background
              {| Bucket := "docs"; Name := "pdf-input/.pdf";
                 ContentType := "application/pdf" |} start
              eq_refl eq_refl eq_refl) as (Hname & Hskip & _).
  split; [exact Hname|exact Hskip].
Defined.

(** ** Configuration *)

Section Configuration.
Variable C : Collaborators.







End Configuration.


(** ** Stages and clean-up *)

Section Pipeline.
Variable C : Collaborators.
Variable env : gmap string string.

Lemma filter_quiet (evs : list event) :
  Forall (λ ev, is_removal ev = false) evs → List.filter is_removal evs = [].
Proof.
  induction 1 as [|ev evs Hev _ IH]; [done|]. cbn. by rewrite Hev.
Qed.

Lemma not_removal_of_log (logs : list event) :
  Forall (λ ev, is_log ev = true) logs →
  Forall (λ ev, is_removal ev = false) logs.
Proof. by apply logs_quiet. Qed.

(** C5.  When the download has succeeded and the extraction gives a text
    that is empty or white space only, the handler returns [nil] and none
    of its events is a synthesis request, a status fetch or a sleep. *)
Theorem blank_text_skips_synthesis (n : nat) (ctx : Context)
    (e : StorageObjectData) (w w1 w2 : World) (path text : string)
    (cleanup : M unit) (evs1 evs2 : list event) :
  isPDF (Name e) = true → inInputFolder (Name e) = true → configured env →
  Storage.DownloadFileToTemp C ctx (Bucket e) (Name e) w
    = Some (inr (path, cleanup), w1, evs1) →
  Pdfprocessor.ExtractTextFromPDFFilePath C path w1
    = Some (inr text, w2, evs2) →
  text = "" ∨ whitespace_only text →
  ∃ w' evs,
    processPDFToSpeechHandler C env n ctx e w = Some (None, w', evs)
    ∧ Forall (λ ev, is_synthesis ev = false) evs.
Proof.
  intros Hpdf Hin Hcfg Hdl Hx Hblank.
  assert (Htrim : TrimSpace text = "").
  { destruct Hblank as [->|Hws]; [reflexivity|].
    by apply TrimSpace_whitespace_only. }
  destruct (ExtractText_events _ _ _ _ _ _ Hx) as (-> & logs & -> & Hlogs).
  destruct (cleanupFunc_run C path w1) as (w3 & l & Hc & _).
  destruct (DownloadFileToTemp_ok _ _ _ _ _ _ _ _ _ Hdl) as (_ & _ & Hevs1).
  eexists _, _. split.
  - apply handler_path_complete; [done..|].
    eapply path_downloaded; [exact Hdl| |exact Hc].
    by apply (stage_no_text _ _ _ _ _ _ _ text logs).
  - rewrite !Forall_app. split; [|split; [|split]].
    + eapply logs_quiet; [|apply prelude_logs]. done.
    + rewrite Hevs1. by repeat constructor.
    + constructor; [done|]. apply Forall_app. split.
      * by eapply logs_quiet.
      * by repeat constructor.
    + by repeat constructor.
Qed.

(** The handler returns whenever the poller does: the polling loop is the
    only place where it can stay. *)
Lemma handler_returns (n : nat) (ctx : Context) (e : StorageObjectData)
    (w : World) :
  isPDF (Name e) = true → inInputFolder (Name e) = true → configured env →
  (∀ text w1,
     ∃ rs w2 evs3,
       Tts.SynthesizeLongAudio C n ctx text (Getenv env "PROJECT_NUMBER")
         (Getenv env "GCP_LOCATION") (outputGCSURI e) (voice env) w1
       = Some (rs, w2, evs3)) →
  ∃ r w' evs, processPDFToSpeechHandler C env n ctx e w = Some (r, w', evs).
Proof.
  intros Hpdf Hin Hcfg Hsyn.
  destruct (DownloadFileToTemp_total C ctx (Bucket e) (Name e) w)
    as (x & w1 & evs1 & Hdl & _).
  destruct x as [err|[path cleanup]].
  { eexists _, _, _. apply handler_path_complete; [done..|]. by constructor. }
  destruct (ExtractText_pure C path) as (x & logs & _ & Hx).
  destruct x as [err|text].
  { destruct (cleanupFunc_run C path w1) as (w3 & l & Hc & _).
    eexists _, _, _. apply handler_path_complete; [done..|].
    eapply path_downloaded; [exact Hdl| |exact Hc].
    apply stage_extract_error, Hx. }
  destruct (decide (TrimSpace text = "")) as [Hblank|Hblank].
  { destruct (cleanupFunc_run C path w1) as (w3 & l & Hc & _).
    eexists _, _, _. apply handler_path_complete; [done..|].
    eapply path_downloaded; [exact Hdl| |exact Hc].
    by apply (stage_no_text _ _ _ _ _ _ _ text logs). }
  destruct (Hsyn text w1) as (rs & w2 & evs3 & Hs).
  destruct (cleanupFunc_run C path w2) as (w3 & l & Hc & _).
  destruct rs as [err|]; eexists _, _, _;
    (apply handler_path_complete; [done..|]);
    (eapply path_downloaded; [exact Hdl| |exact Hc]).
  - by apply (stage_synthesis_error _ _ _ _ _ _ _ text logs).
  - by apply (stage_processed _ _ _ _ _ _ _ text logs).
Qed.

(** C6.  When the download has succeeded, a handler that returns has called
    [os.Remove] once, on the temporary file, as the last thing but the log
    line that follows; the file is then gone unless the system refused to
    remove it.  This holds for every way through the stages: text that
    cannot be extracted, no text, a synthesis that fails, and success. *)
Theorem temp_file_removed_exactly_once (n : nat) (ctx : Context)
    (e : StorageObjectData) (w w1 w' : World) (path : string)
    (cleanup : M unit) (evs1 evs : list event) (r : option error) :
  isPDF (Name e) = true → inInputFolder (Name e) = true → configured env →
  Storage.DownloadFileToTemp C ctx (Bucket e) (Name e) w
    = Some (inr (path, cleanup), w1, evs1) →
  processPDFToSpeechHandler C env n ctx e w = Some (r, w', evs) →
  List.filter is_removal evs = [EvRemove path]
  ∧ (∃ before l, evs = before ++ [EvRemove path; EvLog l])
  ∧ (os_Remove C path = None → path ∉ files w').
Proof.
  intros Hpdf Hin Hcfg Hdl Hrun.
  apply handler_path_sound in Hrun; [|done..].
  destruct Hrun as [err w1' evs1' Hdl'
                   |path' cleanup' w1' evs1' r' w2 evs2 w3 l Hdl' Hst Hc];
    rewrite Hdl in Hdl'; [discriminate Hdl'|].
  injection Hdl' as <- <- <- <-.
  destruct (DownloadFileToTemp_ok _ _ _ _ _ _ _ _ _ Hdl) as (_ & _ & Hevs1).
  apply stages_path_frame in Hst as (_ & Hquiet & _).
  split; [|split].
  - rewrite !List.filter_app.
    rewrite (filter_quiet (prelude env e))
      by (apply not_removal_of_log, prelude_logs).
    rewrite (filter_quiet evs1) by (rewrite Hevs1; by repeat constructor).
    rewrite (filter_quiet evs2)
      by (eapply Forall_impl; [exact Hquiet|]; by intros ev [? _]).
    reflexivity.
  - exists (prelude env e ++ evs1 ++ evs2), l. by rewrite <- !app_assoc.
  - destruct (cleanupFunc_run C path w2) as (w3' & l' & Hc' & _ & _ & Hgone).
    rewrite Hc in Hc'. by injection Hc' as <- <-.
Qed.

(** C10.  Every synthesis request the handler sends on an accepted
    notification has as its output the object [gs://], the bucket of the
    notification, [/] and the output name derived from the notification's
    name. *)
Theorem audio_goes_to_input_bucket (n : nat) (ctx : Context)
    (e : StorageObjectData) (w w' : World) (r : option error)
    (evs : list event) :
  isPDF (Name e) = true → inInputFolder (Name e) = true →
  processPDFToSpeechHandler C env n ctx e w = Some (r, w', evs) →
  Forall (λ req, OutputGcsUri req
                 = "gs://" +:+ Bucket e +:+ "/"
                   +:+ outputAudioObjectName (Name e))
    (requests evs).
Proof.
  intros Hpdf Hin Hrun. destruct (configured_dec env) as [Hcfg|Hcfg].
  - assert (Hpre : requests (prelude env e) = []).
    { apply requests_none. eapply logs_quiet; [|apply prelude_logs]. done. }
    apply handler_path_sound in Hrun; [|done..].
    destruct Hrun as [err w1 evs1 Hdl
                     |path cleanup w1 evs1 r' w2 evs2 w3 l Hdl Hst Hc];
      destruct (DownloadFileToTemp_total C ctx (Bucket e) (Name e) w)
        as (x & w1' & evs1' & Hdl' & Hquiet & _);
      rewrite Hdl in Hdl'; injection Hdl' as <- <- <-;
      assert (Hreq1 : requests evs1 = [])
        by (apply requests_none; eapply Forall_impl; [exact Hquiet|];
            by intros ev [? _]).
    + rewrite requests_app, Hpre, Hreq1. constructor.
    + apply stages_path_frame in Hst as (_ & _ & Hreq).
      rewrite !requests_app, Hpre, Hreq1. cbn. by rewrite app_nil_r.
  - rewrite (handler_config_error C env) in Hrun by done.
    injection Hrun as <- <- <-. constructor.
Qed.

End Pipeline.

Lemma blank_text_skips_synthesis_witness :
  whitespace_only ("  " +:+ EncodeRune 10 +:+ EncodeRune 160 +:+ EncodeRune 8232)
  ∧ ∃ w' evs,
      processPDFToSpeechHandler (collaborators blank_pages slow_failure) env_ok
        0 background report start
      = Some (None, w', evs)
      ∧ Forall (λ ev, is_synthesis ev = false) evs.
Proof.
  assert (Hws : whitespace_only
                  ("  " +:+ EncodeRune 10 +:+ EncodeRune 160 +:+ EncodeRune 8232)).
  { exists [32; 32; 10; 160; 8232]%N. split; reflexivity. }
  split; [exact Hws|].
  assert (Hcfg : configured env_ok) by (split; intros E; discriminate E).
  eapply (blank_text_skips_synthesis (collaborators blank_pages slow_failure)
            env_ok 0 background report start _ _ _ _ _ _ _
            eq_refl eq_refl Hcfg).
  - vm_compute. reflexivity.
  - vm_compute. reflexivity.
  - right. exact Hws.
Defined.

Lemma temp_file_removed_exactly_once_witness :
  ∃ r w' evs,
    processPDFToSpeechHandler (collaborators two_pages slow_failure) env_ok
      3 background report start
    = Some (r, w', evs)
    ∧ List.filter is_removal evs = [EvRemove "/tmp/report.pdf_*.tmp"]
    ∧ (∃ before l, evs = before ++ [EvRemove "/tmp/report.pdf_*.tmp"; EvLog l])
    ∧ "/tmp/report.pdf_*.tmp" ∉ files w'.
Proof.
  assert (Hcfg : configured env_ok) by (split; intros E; discriminate E).
  eexists _, _, _. split; [vm_compute; reflexivity|].
  edestruct (temp_file_removed_exactly_once
               (collaborators two_pages slow_failure) env_ok 3 background
               report start)
    as (Honce & Hlast & Hgone);
    [reflexivity | reflexivity | exact Hcfg
    | vm_compute; reflexivity | vm_compute; reflexivity |].
  split; [exact Honce|]. split; [exact Hlast|]. exact (Hgone eq_refl).
Defined.

Lemma audio_goes_to_input_bucket_witness :
  ∃ r w' evs,
    processPDFToSpeechHandler (collaborators two_pages slow_failure) env_ok
      3 background report start
    = Some (r, w', evs)
    ∧ length (requests evs) = 1
    ∧ Forall (λ req, OutputGcsUri req = "gs://docs/mp3-output/report.mp3")
        (requests evs).
Proof.
  eexists _, _, _. split; [vm_compute; reflexivity|]. split; [reflexivity|].
  eapply (audio_goes_to_input_bucket (collaborators two_pages slow_failure)
            env_ok 3 background report start);
    [reflexivity | reflexivity | vm_compute; reflexivity].
Defined.

(** ** The poller *)

Section Poller.
Variable C : Collaborators.

(** The poller from the request to the end of [k] rounds that find the
    operation not done. *)
Lemma SynthesizeLongAudio_cycles (n k : nat) (ctx : Context)
    (text pn loc uri v op : string) (w : World) :
  client_SynthesizeLongAudio C (cancelled ctx (now w))
    (Tts.request text pn loc uri v) = inr op →
  (∀ i, i < k →
     ∃ o, client_GetOperation C (cancelled ctx (now w + 10 * i)) op
            (polls w + i) = inr o ∧ Done o = false) →
  Tts.SynthesizeLongAudio C (k + n) ctx text pn loc uri v w
  = after ([EvLog LogInitiating;
            EvSynthesizeLongAudio (Tts.request text pn loc uri v);
            EvLog (LogStarted op)] ++ cycles op k)
      (Tts.poll_loop C n ctx op (waited k w)).
Proof.
  intros Hsub Hk.
  rewrite SynthesizeLongAudio_run, Hsub, poll_loop_cycles by exact Hk.
  by rewrite !after_after.
Qed.

(** C7.  Once the backend has accepted the request, the poller fetches the
    status until the first answer that is an error or a finished
    operation, sleeping ten seconds after each answer that is not; it
    returns on that answer and fetches no more: the events are the
    request, [k] rounds of fetch, log line and sleep, the last fetch, and
    log lines.  A failed fetch gives the fetch error, a finished operation
    with an error gives an error with its message, a finished operation
    without error gives [nil].  In particular, not done, not done, then
    done with an error: two rounds, then the error with the message. *)
Theorem poller_stops_at_terminal_state (n : nat) (ctx : Context)
    (text pn loc uri v op : string) (w : World) :
  client_SynthesizeLongAudio C (cancelled ctx (now w))
    (Tts.request text pn loc uri v) = inr op →
  (∀ k resp,
     (∀ i, i < k →
        ∃ o, client_GetOperation C (cancelled ctx (now w + 10 * i)) op
               (polls w + i) = inr o ∧ Done o = false) →
     client_GetOperation C (cancelled ctx (now w + 10 * k)) op (polls w + k)
       = resp →
     match resp with inl _ => True | inr o => Done o = true end →
     k < n →
     ∃ logs,
       Forall (λ ev, is_log ev = true) logs
       ∧ Tts.SynthesizeLongAudio C n ctx text pn loc uri v w
         = Some (match resp with
                 | inl err =>
                     Some (wrapError
                             ("failed to get operation status for " +:+ op
                              +:+ ": " +:+ Error err) err)
                 | inr o =>
                     match GetError o with
                     | Some st =>
                         Some (errorString
                                 ("long audio synthesis operation failed for "
                                  +:+ op +:+ ": " +:+ Message st))
                     | None => None
                     end
                 end,
                 mkWorld (files w) (now w + 10 * k) (S (polls w + k)),
                 [EvLog LogInitiating;
                  EvSynthesizeLongAudio (Tts.request text pn loc uri v);
                  EvLog (LogStarted op)]
                 ++ cycles op k ++ EvGetOperation op :: logs))
  ∧ (∀ o0 o1 o2 st,
       client_GetOperation C (cancelled ctx (now w)) op (polls w) = inr o0 →
       Done o0 = false →
       client_GetOperation C (cancelled ctx (now w + 10)) op (polls w + 1)
         = inr o1 →
       Done o1 = false →
       client_GetOperation C (cancelled ctx (now w + 20)) op (polls w + 2)
         = inr o2 →
       Done o2 = true → GetError o2 = Some st →
       2 < n →
       Tts.SynthesizeLongAudio C n ctx text pn loc uri v w
       = Some (Some (errorString
                       ("long audio synthesis operation failed for "
                        +:+ op +:+ ": " +:+ Message st)),
               mkWorld (files w) (now w + 20) (polls w + 3),
               [EvLog LogInitiating;
                EvSynthesizeLongAudio (Tts.request text pn loc uri v);
                EvLog (LogStarted op);
                EvGetOperation op; EvLog (LogNotYet op); EvSleep 10;
                EvGetOperation op; EvLog (LogNotYet op); EvSleep 10;
                EvGetOperation op])).
Proof.
  intros Hsub. split.
  - intros k resp Hk Hresp Hterm Hlt.
    replace n with (k + S (n - S k)) by lia.
    rewrite (SynthesizeLongAudio_cycles _ _ _ _ _ _ _ _ _ _ Hsub Hk).
    destruct resp as [err|o].
    + exists []. split; [constructor|].
      rewrite (poll_loop_fetch_error C _ ctx op (waited k w) err Hresp).
      unfold after. by rewrite <- app_assoc.
    + destruct (GetError o) as [st|] eqn:He.
      * exists []. split; [constructor|].
        rewrite (poll_loop_failed C _ ctx op (waited k w) o st Hresp Hterm He).
        unfold after. by rewrite <- app_assoc.
      * exists (metadata_log C op o ++ [EvLog (LogCompleted op)]). split.
        -- apply Forall_app. split; [|by repeat constructor].
          unfold metadata_log. repeat case_match; by repeat constructor.
        -- rewrite (poll_loop_succeeded C _ ctx op (waited k w) o Hresp Hterm He).
          unfold after. by rewrite <- app_assoc.
  - intros o0 o1 o2 st H0 D0 H1 D1 H2 D2 He Hlt.
    replace n with (2 + S (n - 3)) by lia.
    rewrite (SynthesizeLongAudio_cycles _ 2 _ _ _ _ _ _ _ _ Hsub).
    + rewrite (poll_loop_failed C _ ctx op (waited 2 w) o2 st H2 D2 He).
      unfold after, fetched, waited. cbn [files now polls].
      by replace (S (polls w + 2)) with (polls w + 3) by lia.
    + intros i Hi. destruct i as [|[|i]]; [| |lia].
      * exists o0. by rewrite Nat.mul_0_r, !Nat.add_0_r.
      * exists o1. done.
Qed.

(** C8.  A status fetch that finds the operation done without error ends
    the poller with [nil], whatever becomes of the metadata; when the
    metadata cannot be decoded, the failure is written to the log, between
    the fetch and the line that reports completion, and goes no further. *)
Theorem undecodable_metadata_is_success (n k : nat) (ctx : Context)
    (text pn loc uri v op : string) (w : World) (o : Operation) :
  client_SynthesizeLongAudio C (cancelled ctx (now w))
    (Tts.request text pn loc uri v) = inr op →
  (∀ i, i < k →
     ∃ o', client_GetOperation C (cancelled ctx (now w + 10 * i)) op
             (polls w + i) = inr o' ∧ Done o' = false) →
  client_GetOperation C (cancelled ctx (now w + 10 * k)) op (polls w + k)
    = inr o →
  Done o = true → GetError o = None →
  k < n →
  (∃ logs,
     Forall (λ ev, is_log ev = true) logs
     ∧ Tts.SynthesizeLongAudio C n ctx text pn loc uri v w
       = Some (None, mkWorld (files w) (now w + 10 * k) (S (polls w + k)),
               [EvLog LogInitiating;
                EvSynthesizeLongAudio (Tts.request text pn loc uri v);
                EvLog (LogStarted op)]
               ++ cycles op k ++ EvGetOperation op :: logs))
  ∧ (∀ any err,
       GetMetadata o = Some any → anypb_UnmarshalTo C any = inl err →
       Tts.SynthesizeLongAudio C n ctx text pn loc uri v w
       = Some (None, mkWorld (files w) (now w + 10 * k) (S (polls w + k)),
               [EvLog LogInitiating;
                EvSynthesizeLongAudio (Tts.request text pn loc uri v);
                EvLog (LogStarted op)]
               ++ cycles op k
               ++ [EvGetOperation op; EvLog (LogMetadataWarning op err);
                   EvLog (LogCompleted op)])).
Proof.
  intros Hsub Hk Hresp Hdone He Hlt.
  assert (Hrun : Tts.SynthesizeLongAudio C n ctx text pn loc uri v w
            = Some (None, mkWorld (files w) (now w + 10 * k) (S (polls w + k)),
                    [EvLog LogInitiating;
                     EvSynthesizeLongAudio (Tts.request text pn loc uri v);
                     EvLog (LogStarted op)]
                    ++ cycles op k
                    ++ EvGetOperation op
                       :: metadata_log C op o ++ [EvLog (LogCompleted op)])).
  { replace n with (k + S (n - S k)) by lia.
    rewrite (SynthesizeLongAudio_cycles _ _ _ _ _ _ _ _ _ _ Hsub Hk).
    rewrite (poll_loop_succeeded C _ ctx op (waited k w) o Hresp Hdone He).
    unfold after. by rewrite <- app_assoc. }
  split.
  - eexists. split; [|exact Hrun]. apply Forall_app.
    split; [|by repeat constructor].
    unfold metadata_log. repeat case_match; by repeat constructor.
  - intros any err Hmeta Hdec. rewrite Hrun. unfold metadata_log.
    by rewrite Hmeta, Hdec.
Qed.

(** C9.  The signal fires at [t], during the sleep of round [k] of the
    poller: the rounds up to that one found the operation not done, and the
    status client honours the context, that is, the fetch it is asked for
    after the sleep, with the cancelled context, fails with [canceled].  Then
    the poller stops there: the sleep ends, that one fetch is made, and the
    poller returns the error of the fetch, which wraps [canceled], less than
    ten seconds after the signal; it neither sleeps nor fetches again. *)
Theorem cancellation_during_sleep_stops_poller (n k : nat) (ctx : Context)
    (text pn loc uri v op : string) (w : World) (t : nat) (canceled : error) :
  cancelAt ctx = Some t →
  now w + 10 * k < t ≤ now w + 10 * S k →
  client_SynthesizeLongAudio C (cancelled ctx (now w))
    (Tts.request text pn loc uri v) = inr op →
  (∀ i, i < S k →
     ∃ o, client_GetOperation C (cancelled ctx (now w + 10 * i)) op
            (polls w + i) = inr o ∧ Done o = false) →
  client_GetOperation C true op (polls w + S k) = inl canceled →
  S k < n →
  ∃ w',
    Tts.SynthesizeLongAudio C n ctx text pn loc uri v w
    = Some (Some (wrapError ("failed to get operation status for " +:+ op
                             +:+ ": " +:+ Error canceled) canceled),
            w',
            [EvLog LogInitiating;
             EvSynthesizeLongAudio (Tts.request text pn loc uri v);
             EvLog (LogStarted op)]
            ++ cycles op (S k) ++ [EvGetOperation op])
    ∧ w' = mkWorld (files w) (now w + 10 * S k) (S (polls w + S k))
    ∧ t ≤ now w' < t + 10.
Proof.
  intros Hctx Ht Hsub Hk Hfetch Hlt.
  assert (Hafter : cancelled ctx (now w + 10 * S k) = true).
  { unfold cancelled. rewrite Hctx. apply Nat.leb_le. lia. }
  eexists. split; [|split; [reflexivity|cbn [now]; lia]].
  replace n with (S k + S (n - S (S k))) by lia.
  rewrite (SynthesizeLongAudio_cycles _ _ _ _ _ _ _ _ _ _ Hsub Hk).
  rewrite (poll_loop_fetch_error C _ ctx op (waited (S k) w) canceled).
  - unfold after, fetched, waited. cbn [files now polls].
    by rewrite <- app_assoc.
  - unfold waited. cbn [now polls]. by rewrite Hafter.
Qed.

End Poller.

Lemma poller_stops_at_terminal_state_witness :
  client_SynthesizeLongAudio (collaborators two_pages slow_failure)
    (cancelled background (now start))
    (Tts.request "Hello world" "42" "us-central1"
       "gs://docs/mp3-output/report.mp3" "en-US-Wavenet-D") = inr "op-1"
  ∧ Tts.SynthesizeLongAudio (collaborators two_pages slow_failure) 3 background
      "Hello world" "42" "us-central1" "gs://docs/mp3-output/report.mp3"
      "en-US-Wavenet-D" start
    = Some (Some (errorString
                    "long audio synthesis operation failed for op-1: quota exceeded"),
            mkWorld ∅ 20 3,
            [EvLog LogInitiating;
             EvSynthesizeLongAudio
               (Tts.request "Hello world" "42" "us-central1"
                  "gs://docs/mp3-output/report.mp3" "en-US-Wavenet-D");
             EvLog (LogStarted "op-1");
             EvGetOperation "op-1"; EvLog (LogNotYet "op-1"); EvSleep 10;
             EvGetOperation "op-1"; EvLog (LogNotYet "op-1"); EvSleep 10;
             EvGetOperation "op-1"]).
Proof.
  split; [reflexivity|].
  exact (proj2 (poller_stops_at_terminal_state
                  (collaborators two_pages slow_failure) 3 background
                  "Hello world" "42" "us-central1"
                  "gs://docs/mp3-output/report.mp3" "en-US-Wavenet-D" "op-1"
                  start eq_refl)
           (notDone "op-1") (notDone "op-1") (doneError "op-1" "quota exceeded")
           {| Code := 13; Message := "quota exceeded" |}
           eq_refl eq_refl eq_refl eq_refl eq_refl eq_refl eq_refl
           (le_n 3)).
Defined.

Lemma undecodable_metadata_is_success_witness :
  Tts.SynthesizeLongAudio (collaborators two_pages bad_metadata) 1 background
    "Hello world" "42" "us-central1" "gs://docs/mp3-output/report.mp3"
    "en-US-Wavenet-D" start
  = Some (None, mkWorld ∅ 0 1,
          [EvLog LogInitiating;
           EvSynthesizeLongAudio
             (Tts.request "Hello world" "42" "us-central1"
                "gs://docs/mp3-output/report.mp3" "en-US-Wavenet-D");
           EvLog (LogStarted "op-1");
           EvGetOperation "op-1";
           EvLog (LogMetadataWarning "op-1"
                    (errorString "mismatched message type"));
           EvLog (LogCompleted "op-1")]).
Proof.
  refine (proj2 (undecodable_metadata_is_success
                   (collaborators two_pages bad_metadata) 1 0 background
                   "Hello world" "42" "us-central1"
                   "gs://docs/mp3-output/report.mp3" "en-US-Wavenet-D" "op-1"
                   start (doneWithMetadata "op-1")
                   eq_refl _ eq_refl eq_refl eq_refl (le_n 1))
            {| TypeUrl := "type.googleapis.com/unknown"; Value := "garbled" |}
            (errorString "mismatched message type") eq_refl eq_refl).
  intros i Hi. exfalso. exact (Nat.nlt_0_r i Hi).
Defined.

Lemma cancellation_during_sleep_stops_poller_witness :
  Tts.SynthesizeLongAudio (collaborators two_pages attentive) 2
    {| cancelAt := Some 5 |} "Hello world" "42" "us-central1"
    "gs://docs/mp3-output/report.mp3" "en-US-Wavenet-D" start
  = Some (Some (wrapError
                  "failed to get operation status for op-1: context canceled"
                  (errorString "context canceled")),
          mkWorld ∅ 10 2,
          [EvLog LogInitiating;
           EvSynthesizeLongAudio
             (Tts.request "Hello world" "42" "us-central1"
                "gs://docs/mp3-output/report.mp3" "en-US-Wavenet-D");
           EvLog (LogStarted "op-1");
           EvGetOperation "op-1"; EvLog (LogNotYet "op-1"); EvSleep 10;
           EvGetOperation "op-1"]).
Proof.
  destruct (cancellation_during_sleep_stops_poller
              (collaborators two_pages attentive) 2 0 {| cancelAt := Some 5 |}
              "Hello world" "42" "us-central1"
              "gs://docs/mp3-output/report.mp3" "en-US-Wavenet-D" "op-1"
              start 5 (errorString "context canceled"))
    as (w' & Hrun & -> & _).
  - reflexivity.
  - cbn. lia.
  - reflexivity.
  - intros i Hi. exists (notDone "op-1").
    destruct i as [|i]; [split; reflexivity|lia].
  - reflexivity.
  - lia.
  - exact Hrun.
Defined.

(** * Further properties of the code *)

Import MoreVocabulary MoreExamples.

(** ** [internal/storage] *)

Section StorageProperties.
Variable C : Collaborators.

(** X1.  A download that fails leaves the local disk as it found it, when the
    temporary file is a new one and the system does not refuse to remove it,
    and its error tells which step failed.  It is the reader that failed,
    and the error wraps the reader's under ["NewReader: "], nothing else
    having been called; or the creation of the temporary file, and the error
    wraps that failure under ["failed to create temp file: "]; or the copy,
    and the error wraps that failure under
    ["failed to copy object to temp file: "], the file having been removed. *)
Theorem failed_download_leaves_no_file (ctx : Context)
    (bucket name : string) (w w1 : World) (err : error)
    (evs1 : list event) :
  Storage.DownloadFileToTemp C ctx bucket name w = Some (inl err, w1, evs1) →
  (∀ p, os_CreateTemp C (Base name +:+ "_*.tmp") = inr p →
        (p ∉ files w) ∧ os_Remove C p = None) →
  w1 = w
  ∧ ((∃ cause,
        obj_NewReader C (cancelled ctx (now w)) bucket name = Some cause
        ∧ err = wrapError ("NewReader: " +:+ Error cause) cause
        ∧ evs1 = [EvNewReader bucket name])
     ∨ (∃ cause,
          obj_NewReader C (cancelled ctx (now w)) bucket name = None
          ∧ os_CreateTemp C (Base name +:+ "_*.tmp") = inl cause
          ∧ err = wrapError ("failed to create temp file: " +:+ Error cause)
                    cause
          ∧ evs1 = [EvNewReader bucket name;
                    EvCreateTemp (Base name +:+ "_*.tmp")])
     ∨ (∃ p cause,
          obj_NewReader C (cancelled ctx (now w)) bucket name = None
          ∧ os_CreateTemp C (Base name +:+ "_*.tmp") = inr p
          ∧ io_Copy C p = Some cause
          ∧ err = wrapError ("failed to copy object to temp file: "
                             +:+ Error cause) cause
          ∧ evs1 = [EvNewReader bucket name;
                    EvCreateTemp (Base name +:+ "_*.tmp");
                    EvCopy p; EvRemove p])).
Proof.
  unfold Storage.DownloadFileToTemp, bind, ctxDone, emit, log, ret,
    CreateTemp, Remove.
  intros Hrun Hfresh.
  destruct (obj_NewReader C _ bucket name) as [e0|] eqn:Hrd; cbn in Hrun.
  { injection Hrun as <- <- <-. split; [done|]. left. by exists e0. }
  destruct (os_CreateTemp C _) as [e0|p] eqn:Htmp; cbn in Hrun.
  { injection Hrun as <- <- <-. split; [done|]. right. left. by exists e0. }
  destruct (Hfresh p eq_refl) as [Hnew Hrm].
  destruct (io_Copy C p) as [e0|] eqn:Hcp; cbn in Hrun; [|discriminate Hrun].
  destruct (decide (p ∈ files w ∪ {[p]})) as [_|Hout];
    [|exfalso; apply Hout, elem_of_union_r; by apply elem_of_singleton].
  rewrite Hrm in Hrun. cbn in Hrun. injection Hrun as <- <- <-. split.
  - destruct w as [fs t k]. cbn in *. f_equal. apply set_eq. intros q.
    rewrite elem_of_difference, elem_of_union, elem_of_singleton. split.
    + intros [[Hq|Hq] Hne]; done.
    + intros Hq. split; [by left|]. by intros ->.
  - right. right. by exists p, e0.
Qed.

(** X2.  The clean-up function can be called again: where the system does
    not refuse to remove the file, a call leaves the file absent and says so
    in the log, and a second call, which finds no file, changes nothing and
    writes the same line, not an error. *)
Theorem cleanup_twice_is_harmless (path : string) (w : World) :
  os_Remove C path = None →
  ∃ w1,
    Storage.cleanupFunc C path w
      = Some (tt, w1, [EvRemove path; EvLog (LogCleanedUp path)])
    ∧ (path ∉ files w1)
    ∧ Storage.cleanupFunc C path w1
      = Some (tt, w1, [EvRemove path; EvLog (LogCleanedUp path)]).
Proof.
  intros Hrm.
  assert (Hgone : ∀ w0, path ∉ files w0 →
            Storage.cleanupFunc C path w0
            = Some (tt, w0, [EvRemove path; EvLog (LogCleanedUp path)])).
  { intros w0 Hout. unfold Storage.cleanupFunc, bind, Remove.
    destruct (decide (path ∈ files w0)); [done|]. reflexivity. }
  destruct (decide (path ∈ files w)) as [Hin|Hout].
  - exists (mkWorld (files w ∖ {[path]}) (now w) (polls w)).
    assert (Hafter : path ∉ files w ∖ {[path]}).
    { intros [_ Hne]%elem_of_difference. apply Hne. by apply elem_of_singleton. }
    split; [|split; [exact Hafter|by apply Hgone]].
    unfold Storage.cleanupFunc, bind, Remove.
    destruct (decide (path ∈ files w)); [|done]. by rewrite Hrm.
  - exists w. split; [by apply Hgone|]. split; [done|by apply Hgone].
Qed.

End StorageProperties.

Lemma failed_download_leaves_no_file_witness :
  Storage.DownloadFileToTemp
    (faulty None (Some (errorString "connection reset")) (inr "op-1")
       two_pages)
    background "docs" "pdf-input/report.pdf" start
  = Some (inl (wrapError
                 "failed to copy object to temp file: connection reset"
                 (errorString "connection reset")),
          start,
          [EvNewReader "docs" "pdf-input/report.pdf";
           EvCreateTemp "report.pdf_*.tmp";
           EvCopy "/tmp/report.pdf_*.tmp"; EvRemove "/tmp/report.pdf_*.tmp"]).
Proof.
  set (C := faulty None (Some (errorString "connection reset")) (inr "op-1")
              two_pages).
  destruct (DownloadFileToTemp_total C background "docs"
              "pdf-input/report.pdf" start) as (x & w1 & evs1 & Hrun & _).
  destruct x as [err|[path cleanup]];
    [|vm_compute in Hrun; discriminate Hrun].
  destruct (failed_download_leaves_no_file C background "docs"
              "pdf-input/report.pdf" start w1 err evs1 Hrun)
    as [-> [Hcase|[Hcase|Hcase]]].
  - intros p [= <-]. split; [|reflexivity]. apply not_elem_of_empty.
  - destruct Hcase as (cause & Hrd & _). discriminate Hrd.
  - destruct Hcase as (cause & _ & Htmp & _). discriminate Htmp.
  - destruct Hcase as (p & cause & _ & Htmp & Hcp & -> & ->).
    vm_compute in Htmp. injection Htmp as <-.
    vm_compute in Hcp. injection Hcp as <-.
    rewrite Hrun. reflexivity.
Defined.

Lemma cleanup_twice_is_harmless_witness :
  ∃ w1,
    Storage.cleanupFunc (collaborators two_pages slow_failure) "/tmp/x.tmp"
      (mkWorld {["/tmp/x.tmp"]} 0 0)
    = Some (tt, w1, [EvRemove "/tmp/x.tmp"; EvLog (LogCleanedUp "/tmp/x.tmp")])
    ∧ ("/tmp/x.tmp" ∉ files w1)
    ∧ Storage.cleanupFunc (collaborators two_pages slow_failure) "/tmp/x.tmp" w1
      = Some (tt, w1, [EvRemove "/tmp/x.tmp"; EvLog (LogCleanedUp "/tmp/x.tmp")]).
Proof.
  exact (cleanup_twice_is_harmless (collaborators two_pages slow_failure)
           "/tmp/x.tmp" (mkWorld {["/tmp/x.tmp"]} 0 0) eq_refl).
Defined.

(** ** Upload and listing *)

Section ObjectProperties.
Variable St : StorageObjects.ObjectStore.

(** X3.  [UploadFile] closes the writer once on every way through it.  It
    returns [nil] exactly when both the write and the close succeed, and only
    then writes its log line.  A failed write is the error reported, whatever
    the close answers; a failed close after a good write is reported as
    such. *)
Theorem upload_closes_writer_once (ctx : Context)
    (bucket object content contentType : string) :
  let run := StorageObjects.UploadFile St ctx bucket object content contentType in
  let write :=
    StorageObjects.writer_Write St ctx bucket object contentType content in
  let close :=
    StorageObjects.writer_Close St ctx bucket object contentType false in
  closes (snd run) = 1
  ∧ (fst run = None ↔ write = None ∧ close = None)
  ∧ (In (StorageObjects.CallLogUploaded bucket object) (snd run)
     ↔ fst run = None)
  ∧ (∀ err, write = Some err →
       fst run = Some (wrapError
                         ("failed to write to GCS object " +:+ bucket +:+ "/"
                          +:+ object +:+ ": " +:+ Error err) err))
  ∧ (∀ err, write = None → close = Some err →
       fst run = Some (wrapError
                         ("failed to close GCS writer for " +:+ bucket +:+ "/"
                          +:+ object +:+ ": " +:+ Error err) err)).
Proof.
  cbv zeta. unfold StorageObjects.UploadFile.
  destruct (StorageObjects.writer_Write St ctx bucket object contentType content)
    as [e1|];
    [|destruct (StorageObjects.writer_Close St ctx bucket object contentType false)
        as [e2|]];
    cbn; (split; [reflexivity|]); (split; [|split; [|split]]);
    try (split; intros H; try discriminate H; try (by destruct H); done);
    try (intros err' H; try discriminate H; by injection H as ->);
    try (intros err' H1 H2; try discriminate H2; by injection H2 as ->).
  - split; [|discriminate]. intros H.
    repeat (destruct H as [H|H]; [discriminate H|]). destruct H.
  - split; [|discriminate]. intros H.
    repeat (destruct H as [H|H]; [discriminate H|]). destruct H.
  - split; [done|]. intros _. do 4 right. by left.
Qed.

(** The loop of the listing, from any slice: objects are appended in the
    order the iterator gives them, one call of [Next] each and one more for
    the end. *)
Lemma next_loop_all (prefix : string) (objs : list StorageObjects.ObjectAttrs) :
  ∀ acc,
    StorageObjects.next_loop prefix (map inr objs) acc
    = (inr (acc ++ objs), replicate (S (length objs)) StorageObjects.CallNext).
Proof.
  induction objs as [|o objs IH]; intros acc.
  - cbn. by rewrite app_nil_r.
  - cbn [map StorageObjects.next_loop]. unfold StorageObjects.andThen.
    cbn [StorageObjects.did]. rewrite IH. by rewrite <- app_assoc.
Qed.

Lemma next_loop_error (prefix : string) (objs : list StorageObjects.ObjectAttrs)
    (err : error) (rest : list (error + StorageObjects.ObjectAttrs)) :
  ∀ acc,
    StorageObjects.next_loop prefix (map inr objs ++ inl err :: rest) acc
    = (inl (wrapError ("error listing objects with prefix " +:+ prefix
                       +:+ ": " +:+ Error err) err),
       replicate (S (length objs)) StorageObjects.CallNext).
Proof.
  induction objs as [|o objs IH]; intros acc.
  - reflexivity.
  - cbn [map app StorageObjects.next_loop]. unfold StorageObjects.andThen.
    cbn [StorageObjects.did]. by rewrite IH.
Qed.

(** X4.  [ListObjectsWithPrefix] gives all or nothing.  When the iterator
    gives objects until its end, the result is those objects in that order,
    after one call of [Next] for each and one for the end.  When the iterator
    fails, the result is the error that wraps the failure and no object, not
    even those listed before, and [Next] is not called again. *)
Theorem listing_is_all_or_nothing (ctx : Context) (bucket prefix : string) :
  (∀ objs,
     StorageObjects.bucket_Objects St ctx bucket prefix = map inr objs →
     StorageObjects.ListObjectsWithPrefix St ctx bucket prefix
     = (inr objs,
        StorageObjects.CallObjects bucket prefix
        :: replicate (S (length objs)) StorageObjects.CallNext))
  ∧ (∀ objs err rest,
       StorageObjects.bucket_Objects St ctx bucket prefix
         = map inr objs ++ inl err :: rest →
       StorageObjects.ListObjectsWithPrefix St ctx bucket prefix
       = (inl (wrapError ("error listing objects with prefix " +:+ prefix
                          +:+ ": " +:+ Error err) err),
          StorageObjects.CallObjects bucket prefix
          :: replicate (S (length objs)) StorageObjects.CallNext)).
Proof.
  split.
  - intros objs Hans. unfold StorageObjects.ListObjectsWithPrefix.
    rewrite Hans. unfold StorageObjects.andThen. cbn [StorageObjects.did].
    by rewrite next_loop_all.
  - intros objs err rest Hans. unfold StorageObjects.ListObjectsWithPrefix.
    rewrite Hans. unfold StorageObjects.andThen. cbn [StorageObjects.did].
    by rewrite next_loop_error.
Qed.

End ObjectProperties.

Lemma upload_closes_writer_once_witness :
  StorageObjects.UploadFile (store None (Some (errorString "precondition failed")) [])
    background "docs" "mp3-output/report.mp3" "RIFF" "audio/wav"
  = (Some (wrapError
             "failed to close GCS writer for docs/mp3-output/report.mp3: precondition failed"
             (errorString "precondition failed")),
     [StorageObjects.CallNewWriter "docs" "mp3-output/report.mp3";
      StorageObjects.CallSetContentType "audio/wav";
      StorageObjects.CallWrite "RIFF"; StorageObjects.CallClose]).
Proof.
  pose proof (upload_closes_writer_once
                (store None (Some (errorString "precondition failed")) [])
                background "docs" "mp3-output/report.mp3" "RIFF" "audio/wav")
    as (_ & _ & _ & _ & Hclose).
  specialize (Hclose (errorString "precondition failed") eq_refl eq_refl).
  reflexivity.
Defined.

Lemma listing_is_all_or_nothing_witness :
  StorageObjects.ListObjectsWithPrefix (store None None (map inr two_objects))
    background "docs" "pdf-input/"
  = (inr two_objects,
     [StorageObjects.CallObjects "docs" "pdf-input/"; StorageObjects.CallNext;
      StorageObjects.CallNext; StorageObjects.CallNext])
  ∧ StorageObjects.ListObjectsWithPrefix
      (store None None
         (map inr two_objects ++ [inl (errorString "deadline exceeded")]))
      background "docs" "pdf-input/"
    = (inl (wrapError
              "error listing objects with prefix pdf-input/: deadline exceeded"
              (errorString "deadline exceeded")),
       [StorageObjects.CallObjects "docs" "pdf-input/"; StorageObjects.CallNext;
        StorageObjects.CallNext; StorageObjects.CallNext]).
Proof.
  split.
  - exact (proj1 (listing_is_all_or_nothing
                    (store None None (map inr two_objects)) background "docs"
                    "pdf-input/") two_objects eq_refl).
  - exact (proj2 (listing_is_all_or_nothing
                    (store None None
                       (map inr two_objects
                        ++ [inl (errorString "deadline exceeded")]))
                    background "docs" "pdf-input/")
             two_objects (errorString "deadline exceeded") [] eq_refl).
Defined.

(** ** [internal/pdf-to-text/pdfprocessor] *)

Section ExtractionProperties.
Variable C : Collaborators.

Lemma extract_pages_run (filePath : string) (pages : list (error + string)) :
  ∀ i acc w,
    Pdfprocessor.extract_pages filePath i pages acc w
    = Some (acc +:+ readable_text pages, w, page_warnings filePath i pages).
Proof.
  induction pages as [|[err|text] pages IH]; intros i acc w.
  - cbn. by rewrite app_empty_r.
  - cbn [Pdfprocessor.extract_pages]. rewrite bind_log, IH. reflexivity.
  - cbn [Pdfprocessor.extract_pages]. rewrite IH.
    unfold readable_text. cbn [omap fold_right]. by rewrite app_assoc'.
Qed.

Lemma ExtractText_run (filePath : string) (pages : list (error + string))
    (w : World) :
  pdf_Open C filePath = inr pages →
  Pdfprocessor.ExtractTextFromPDFFilePath C filePath w
  = Some (inr (readable_text pages), w,
          EvPdfOpen filePath :: page_warnings filePath 1 pages).
Proof.
  intros Hopen. unfold Pdfprocessor.ExtractTextFromPDFFilePath.
  rewrite bind_emit, Hopen. destruct pages as [|p pages]; [reflexivity|].
  cbn [length Nat.eqb].
  rewrite (bind_run _ _ _ _ _ _ (extract_pages_run filePath (p :: pages) 1 "" w)).
  by rewrite after_after, after_ret.
Qed.

(** X5.  The extraction fails only when the document cannot be opened.  Once
    it is open, the text is that of the pages that could be read, in order;
    a page that could not be read is left out and gives one warning with its
    number, counted from 1; the world is as before.  A document with no
    page, or with no readable page, gives the empty text and no error. *)
Theorem extraction_keeps_readable_pages (filePath : string) (w : World) :
  (∀ pages,
     pdf_Open C filePath = inr pages →
     Pdfprocessor.ExtractTextFromPDFFilePath C filePath w
     = Some (inr (readable_text pages), w,
             EvPdfOpen filePath :: page_warnings filePath 1 pages))
  ∧ (∀ err,
       pdf_Open C filePath = inl err →
       Pdfprocessor.ExtractTextFromPDFFilePath C filePath w
       = Some (inl (wrapError ("failed to open PDF file " +:+ filePath
                               +:+ " for extraction: " +:+ Error err) err),
               w, [EvPdfOpen filePath]))
  ∧ (∀ pages,
       Forall (λ p, ∃ err, p = inl err) pages → readable_text pages = "").
Proof.
  split; [|split].
  - intros pages. apply ExtractText_run.
  - intros err Hopen. unfold Pdfprocessor.ExtractTextFromPDFFilePath.
    by rewrite bind_emit, Hopen.
  - induction 1 as [|p pages [err ->] _ IH]; [reflexivity|exact IH].
Qed.

End ExtractionProperties.

Lemma extraction_keeps_readable_pages_witness :
  Pdfprocessor.ExtractTextFromPDFFilePath (collaborators two_pages slow_failure)
    "/tmp/report.tmp" start
  = Some (inr "Hello world", start,
          [EvPdfOpen "/tmp/report.tmp";
           EvLog (LogPageWarning 2 "/tmp/report.tmp"
                    (errorString "unreadable page"))]).
Proof.
  exact (proj1 (extraction_keeps_readable_pages
                  (collaborators two_pages slow_failure) "/tmp/report.tmp"
                  start) two_pages eq_refl).
Defined.

(** ** [internal/tts] *)

Section PollerProperties.
Variable C : Collaborators.

(** The loop is still running after [n] rounds when the [n] status fetches
    it made, each with the context as it was at the time of the fetch, all
    found the operation not done. *)
Lemma poll_loop_still_running (n : nat) (ctx : Context) (op : string)
    (w : World) :
  (∀ i, i < n →
     ∃ o, client_GetOperation C (cancelled ctx (now w + 10 * i)) op
            (polls w + i) = inr o ∧ Done o = false) →
  Tts.poll_loop C n ctx op w = None.
Proof.
  intros Hn. pose proof (poll_loop_cycles C n 0 ctx op w Hn) as Hrun.
  rewrite Nat.add_0_r in Hrun. by rewrite Hrun.
Qed.

(** X6.  The poller has no time limit of its own: when the backend accepts
    the request and the status fetches the poller makes, one every ten
    seconds, each with the context as it is at that time, keep finding the
    operation not done, the poller is still running after any number [n] of
    rounds.  Only the [n] fetches made are asked to find the operation not
    done. *)
Theorem poller_has_no_timeout (n : nat) (ctx : Context)
    (text pn loc uri v op : string) (w : World) :
  client_SynthesizeLongAudio C (cancelled ctx (now w))
    (Tts.request text pn loc uri v) = inr op →
  (∀ i, i < n →
     ∃ o, client_GetOperation C (cancelled ctx (now w + 10 * i)) op
            (polls w + i) = inr o ∧ Done o = false) →
  Tts.SynthesizeLongAudio C n ctx text pn loc uri v w = None.
Proof.
  intros Hsub Hn.
  by rewrite SynthesizeLongAudio_run, Hsub, poll_loop_still_running.
Qed.

Lemma sleeps_app (evs1 evs2 : list event) :
  sleeps (evs1 ++ evs2) = sleeps evs1 + sleeps evs2.
Proof. unfold sleeps. by rewrite List.filter_app, length_app. Qed.

Lemma fetches_app (evs1 evs2 : list event) :
  fetches (evs1 ++ evs2) = fetches evs1 + fetches evs2.
Proof. unfold fetches. by rewrite List.filter_app, length_app. Qed.

Lemma logs_count (logs : list event) :
  Forall (λ ev, is_log ev = true) logs → sleeps logs = 0 ∧ fetches logs = 0.
Proof.
  induction 1 as [|ev evs Hev _ IH]; [done|].
  destruct ev; try discriminate Hev. exact IH.
Qed.

Lemma metadata_log_logs (op : string) (o : Operation) :
  Forall (λ ev, is_log ev = true) (metadata_log C op o).
Proof. unfold metadata_log. repeat case_match; by repeat constructor. Qed.

(** The loop keeps the clock and the count of fetches in step with its
    events. *)
Lemma poll_loop_clock (n : nat) (ctx : Context) (op : string) :
  ∀ w r w' evs,
    Tts.poll_loop C n ctx op w = Some (r, w', evs) →
    now w' = now w + 10 * sleeps evs
    ∧ polls w' = polls w + fetches evs
    ∧ fetches evs = S (sleeps evs).
Proof.
  induction n as [|n IH]; intros w r w' evs; [discriminate|].
  destruct (client_GetOperation C (cancelled ctx (now w)) op (polls w))
    as [err|o] eqn:Hop.
  - rewrite (poll_loop_fetch_error _ _ _ _ _ _ Hop). intros [= <- <- <-].
    cbn. lia.
  - destruct (Done o) eqn:Hd; [destruct (GetError o) as [st|] eqn:He|].
    + rewrite (poll_loop_failed _ _ _ _ _ _ _ Hop Hd He). intros [= <- <- <-].
      cbn. lia.
    + rewrite (poll_loop_succeeded _ _ _ _ _ _ Hop Hd He). intros [= <- <- <-].
      change (EvGetOperation op :: metadata_log C op o ++ [EvLog (LogCompleted op)])
        with ([EvGetOperation op]
              ++ metadata_log C op o ++ [EvLog (LogCompleted op)]).
      rewrite !sleeps_app, !fetches_app.
      destruct (logs_count _ (metadata_log_logs op o)) as [-> ->].
      cbn. lia.
    + rewrite (poll_loop_not_done _ _ _ _ _ _ Hop Hd).
      destruct (Tts.poll_loop C n ctx op _) as [[[r2 w2] evs2]|] eqn:Hrun;
        [|discriminate].
      unfold after. intros [= <- <- <-].
      apply IH in Hrun as (Hnow & Hpolls & Hcount). cbn [now polls] in *.
      unfold sleeps, fetches in *. cbn. lia.
Qed.

(** X7.  Time passes in the poller by its sleeps only, ten seconds each: on
    return the clock has advanced by ten seconds for each sleep among the
    events and the backend has served one status fetch for each fetch among
    them.  Either there was no fetch, or one more fetch than sleeps: every
    sleep is followed by a fetch and the poller never ends on a sleep.  One
    request was sent and no file was touched. *)
Theorem poller_time_is_sleep_time (n : nat) (ctx : Context)
    (text pn loc uri v : string) (w w' : World) (r : option error)
    (evs : list event) :
  Tts.SynthesizeLongAudio C n ctx text pn loc uri v w = Some (r, w', evs) →
  now w' = now w + 10 * sleeps evs
  ∧ polls w' = polls w + fetches evs
  ∧ (fetches evs = 0 ∧ sleeps evs = 0 ∨ fetches evs = S (sleeps evs))
  ∧ requests evs = [Tts.request text pn loc uri v]
  ∧ files w' = files w.
Proof.
  intros Hrun.
  destruct (SynthesizeLongAudio_frame _ _ _ _ _ _ _ _ _ _ _ _ Hrun)
    as (Hfiles & evs' & Hevs & Hpoll).
  assert (Hreq : requests evs = [Tts.request text pn loc uri v]).
  { rewrite Hevs. cbn. by rewrite requests_polling. }
  rewrite SynthesizeLongAudio_run in Hrun.
  destruct (client_SynthesizeLongAudio C _ _) as [err|op].
  - cbn in Hrun. injection Hrun as <- <- <-. cbn.
    repeat split; try done; try lia.
  - destruct (Tts.poll_loop C n ctx op w) as [[[r2 w2] evs2]|] eqn:Hloop;
      [|discriminate].
    rewrite after_after in Hrun. unfold after in Hrun.
    injection Hrun as <- <- <-.
    apply poll_loop_clock in Hloop as (Hnow & Hpolls & Hcount).
    unfold sleeps, fetches in *. cbn.
    repeat split; try done; lia.
Qed.

End PollerProperties.

Lemma poller_has_no_timeout_witness :
  Tts.SynthesizeLongAudio (collaborators two_pages attentive) 1000
    background "Hello world" "42" "us-central1"
    "gs://docs/mp3-output/report.mp3" "en-US-Wavenet-D" start
  = None.
Proof.
  apply (poller_has_no_timeout (collaborators two_pages attentive) 1000
           background "Hello world" "42" "us-central1"
           "gs://docs/mp3-output/report.mp3" "en-US-Wavenet-D" "op-1" start
           eq_refl).
  intros i _. exists (notDone "op-1"). split; reflexivity.
Defined.

Lemma poller_time_is_sleep_time_witness :
  ∃ r w' evs,
    Tts.SynthesizeLongAudio (collaborators two_pages slow_failure) 3 background
      "Hello world" "42" "us-central1" "gs://docs/mp3-output/report.mp3"
      "en-US-Wavenet-D" start
    = Some (r, w', evs)
    ∧ sleeps evs = 2 ∧ fetches evs = 3
    ∧ now w' = now start + 10 * sleeps evs
    ∧ polls w' = polls start + fetches evs.
Proof.
  eexists _, _, _. split; [vm_compute; reflexivity|].
  split; [reflexivity|]. split; [reflexivity|].
  edestruct (poller_time_is_sleep_time (collaborators two_pages slow_failure)
               3 background "Hello world" "42" "us-central1"
               "gs://docs/mp3-output/report.mp3" "en-US-Wavenet-D" start)
    as (Hnow & Hpolls & _); [vm_compute; reflexivity|].
  split; [exact Hnow|exact Hpolls].
Defined.

(** ** [function.go] *)

Section HandlerProperties.
Variable C : Collaborators.
Variable env : gmap string string.

(** The three ways a run of the handler can go: the notification is skipped,
    a required setting is missing, or it is one of the ways through the
    stages. *)
Lemma handler_cases (n : nat) (ctx : Context) (e : StorageObjectData)
    (w w' : World) (r : option error) (evs : list event) :
  processPDFToSpeechHandler C env n ctx e w = Some (r, w', evs) →
  (r = None ∧ w' = w ∧ Forall (λ ev, is_log ev = true) evs)
  ∨ (r = Some configError ∧ w' = w ∧ Forall (λ ev, is_log ev = true) evs)
  ∨ (isPDF (Name e) = true ∧ inInputFolder (Name e) = true ∧ configured env
     ∧ handler_path C env n ctx e w r w' evs).
Proof.
  intros Hrun.
  destruct (isPDF (Name e)) eqn:Hpdf; [destruct (inInputFolder (Name e)) eqn:Hin|].
  - destruct (configured_dec env) as [Hcfg|Hcfg].
    + right. right. repeat split; try done; try apply Hcfg.
      by apply handler_path_sound.
    + rewrite (handler_config_error C env) in Hrun by done.
      injection Hrun as <- <- <-. right. left. by repeat constructor.
  - left. unfold isPDF, inInputFolder, processPDFToSpeechHandler in *.
    rewrite Hpdf, Hin in Hrun. cbn in Hrun. injection Hrun as <- <- <-.
    by repeat constructor.
  - left. unfold isPDF, processPDFToSpeechHandler in *.
    rewrite Hpdf in Hrun. cbn in Hrun. injection Hrun as <- <- <-.
    by repeat constructor.
Qed.

Lemma requests_logs (logs : list event) :
  Forall (λ ev, is_log ev = true) logs → requests logs = [].
Proof. intros H. apply requests_none. revert H. by apply logs_quiet. Qed.

(** The requests of the stages: none, or one for a text that is not blank. *)
Lemma stages_path_requests (n : nat) (ctx : Context) (e : StorageObjectData)
    (path : string) (w1 w2 : World) (r : option error) (evs2 : list event) :
  stages_path C env n ctx e path w1 r w2 evs2 →
  requests evs2 = []
  ∨ ∃ text,
      TrimSpace text ≠ ""
      ∧ requests evs2
        = [Tts.request text (Getenv env "PROJECT_NUMBER")
             (Getenv env "GCP_LOCATION") (outputGCSURI e) (voice env)].
Proof.
  intros [err logs Hx|text logs Hx Hblank|text logs err w2' evs3 Hx Hblank Hs
         |text logs w2' evs3 Hx Hblank Hs];
    apply ExtractText_events in Hx as (_ & logs' & [= <-] & Hlogs);
    try (apply SynthesizeLongAudio_frame in Hs as (Hf & evs' & -> & Hev)).
  - left. cbn. by apply requests_logs.
  - left. cbn. by rewrite requests_app, requests_logs.
  - right. exists text. split; [done|]. cbn.
    rewrite requests_app, requests_logs by done. cbn.
    by rewrite requests_polling.
  - right. exists text. split; [done|]. cbn.
    rewrite requests_app, requests_logs by done. cbn.
    by rewrite requests_app, requests_polling.
Qed.

Lemma outputGCSURI_suffix (e : StorageObjectData) :
  HasSuffix (outputGCSURI e) ".mp3" = true.
Proof.
  apply HasSuffix_app.
  exists ("gs://" +:+ Bucket e +:+ "/" +:+ outputFolderPrefix
          +:+ trimmedBaseName (Name e)).
  unfold outputGCSURI, outputAudioObjectName. by rewrite !app_assoc'.
Qed.

(** X8.  A run of the handler sends at most one synthesis request.  The
    request is for a text that is not blank, in linear 16-bit encoding at
    16000 Hz, for the language [en-US] and the neutral gender, with the
    configured voice or the default one, under the parent
    [projects/PROJECT_NUMBER/locations/GCP_LOCATION], and its output object
    has a name that ends in [.mp3]. *)
Theorem handler_sends_at_most_one_request (n : nat) (ctx : Context)
    (e : StorageObjectData) (w w' : World) (r : option error)
    (evs : list event) :
  processPDFToSpeechHandler C env n ctx e w = Some (r, w', evs) →
  length (requests evs) ≤ 1
  ∧ Forall (λ req,
             Encoding req = LINEAR16
             ∧ SampleRateHertz req = 16000%N
             ∧ LanguageCode req = "en-US"
             ∧ SsmlGender req = NEUTRAL
             ∧ VoiceName req = voice env
             ∧ Parent req = "projects/" +:+ Getenv env "PROJECT_NUMBER"
                            +:+ "/locations/" +:+ Getenv env "GCP_LOCATION"
             ∧ TrimSpace (InputText req) ≠ ""
             ∧ HasSuffix (OutputGcsUri req) ".mp3" = true)
      (requests evs).
Proof.
  intros [(_ & _ & Hlogs)|[(_ & _ & Hlogs)|(_ & _ & _ & Hpath)]]%handler_cases;
    try (rewrite (requests_logs evs Hlogs); split; [cbn; lia|constructor]).
  destruct Hpath as [err w1 evs1 Hdl
                    |path cleanup w1 evs1 r' w2 evs2 w3 l Hdl Hst Hc];
    destruct (DownloadFileToTemp_total C ctx (Bucket e) (Name e) w)
      as (x & w1' & evs1' & Hdl' & Hquiet & _);
    rewrite Hdl in Hdl'; injection Hdl' as <- <- <-;
    assert (Hreq1 : requests evs1 = [])
      by (apply requests_none; eapply Forall_impl; [exact Hquiet|];
          by intros ev [? _]);
    rewrite !requests_app, (requests_logs _ (prelude_logs env e)), Hreq1.
  - split; [cbn; lia|constructor].
  - cbn. rewrite app_nil_r.
    destruct (stages_path_requests _ _ _ _ _ _ _ _ Hst)
      as [->|(text & Hblank & ->)]; [split; [cbn; lia|constructor]|].
    split; [cbn; lia|]. constructor; [|constructor]. cbn.
    repeat split; try done. apply outputGCSURI_suffix.
Qed.

(** X9.  An error the handler returns tells which step failed and why.  It
    is the configuration error, a required setting being empty; or the
    download failed and the error wraps its failure under
    ["failed to download PDF "], the name of the object and a colon; or the
    download succeeded, the extraction failed and the error wraps its
    failure under ["failed to extract text from PDF "]; or download and
    extraction succeeded, the synthesis failed and the error wraps its
    failure under ["failed to synthesize speech for "]. *)
Theorem handler_errors_name_the_object (n : nat) (ctx : Context)
    (e : StorageObjectData) (w w' : World) (err : error) (evs : list event) :
  processPDFToSpeechHandler C env n ctx e w = Some (Some err, w', evs) →
  reports_failed_step C env n ctx e w err.
Proof.
  intros Hrun. unfold reports_failed_step.
  destruct (isPDF (Name e)) eqn:Hpdf;
    [destruct (inInputFolder (Name e)) eqn:Hin|].
  - destruct (configured_dec env) as [Hcfg|Hcfg].
    + right. apply handler_path_sound in Hrun; [|done..].
      inversion Hrun as [cause w1 evs1 Hdl
                        |path cleanup w1 evs1 r' w2 evs2 w3 l Hdl Hst Hc];
        subst.
      * left. by eexists _, _, _.
      * right. eexists _, _, _, _. split; [exact Hdl|].
        inversion Hst as [cause logs Hx|text logs Hx Hblank
                         |text logs cause w2' evs3 Hx Hblank Hs
                         |text logs w2' evs3 Hx Hblank Hs]; subst.
        -- left. by eexists _, _.
        -- right. by eexists _, _, _, _, _.
    + left. rewrite (handler_config_error C env) in Hrun by done.
      by injection Hrun as <- _ _.
  - unfold isPDF, inInputFolder, processPDFToSpeechHandler in *.
    rewrite Hpdf, Hin in Hrun. cbn in Hrun. discriminate Hrun.
  - unfold isPDF, processPDFToSpeechHandler in *.
    rewrite Hpdf in Hrun. cbn in Hrun. discriminate Hrun.
Qed.

End HandlerProperties.

Lemma handler_sends_at_most_one_request_witness :
  ∃ r w' evs,
    processPDFToSpeechHandler (collaborators two_pages slow_failure) env_ok 3
      background report start
    = Some (r, w', evs)
    ∧ requests evs
      = [Tts.request "Hello world" "42" "us-central1"
           "gs://docs/mp3-output/report.mp3" "en-US-Wavenet-D"]
    ∧ Forall (λ req, Encoding req = LINEAR16
                     ∧ HasSuffix (OutputGcsUri req) ".mp3" = true)
        (requests evs).
Proof.
  eexists _, _, _. split; [vm_compute; reflexivity|]. split; [reflexivity|].
  edestruct (handler_sends_at_most_one_request
               (collaborators two_pages slow_failure) env_ok 3 background
               report start) as [_ Hreq]; [vm_compute; reflexivity|].
  eapply Forall_impl; [exact Hreq|]. cbn. intros req H. split; apply H.
Defined.

Lemma handler_errors_name_the_object_witness :
  processPDFToSpeechHandler (collaborators two_pages slow_failure) env_ok 3
    background report start
  = Some (Some (wrapError
                  "failed to synthesize speech for pdf-input/report.pdf: long audio synthesis operation failed for op-1: quota exceeded"
                  (errorString
                     "long audio synthesis operation failed for op-1: quota exceeded")),
          mkWorld ∅ 20 3,
          prelude env_ok report
          ++ [EvNewReader "docs" "pdf-input/report.pdf";
              EvCreateTemp "report.pdf_*.tmp";
              EvCopy "/tmp/report.pdf_*.tmp";
              EvLog (LogDownloaded "docs" "pdf-input/report.pdf"
                       "/tmp/report.pdf_*.tmp");
              EvPdfOpen "/tmp/report.pdf_*.tmp";
              EvLog (LogPageWarning 2 "/tmp/report.pdf_*.tmp"
                       (errorString "unreadable page"));
              EvLog (LogExtractedLength 11);
              EvLog LogInitiating;
              EvSynthesizeLongAudio
                (Tts.request "Hello world" "42" "us-central1"
                   "gs://docs/mp3-output/report.mp3" "en-US-Wavenet-D");
              EvLog (LogStarted "op-1");
              EvGetOperation "op-1"; EvLog (LogNotYet "op-1"); EvSleep 10;
              EvGetOperation "op-1"; EvLog (LogNotYet "op-1"); EvSleep 10;
              EvGetOperation "op-1";
              EvRemove "/tmp/report.pdf_*.tmp";
              EvLog (LogCleanedUp "/tmp/report.pdf_*.tmp")])
  ∧ reports_failed_step (collaborators two_pages slow_failure) env_ok 3
      background report start
      (wrapError
         "failed to synthesize speech for pdf-input/report.pdf: long audio synthesis operation failed for op-1: quota exceeded"
         (errorString
            "long audio synthesis operation failed for op-1: quota exceeded")).
Proof.
  assert (Hrun : processPDFToSpeechHandler
                   (collaborators two_pages slow_failure) env_ok 3 background
                   report start
                 = Some (Some (wrapError
                                 "failed to synthesize speech for pdf-input/report.pdf: long audio synthesis operation failed for op-1: quota exceeded"
                                 (errorString
                                    "long audio synthesis operation failed for op-1: quota exceeded")),
                         mkWorld ∅ 20 3,
                         prelude env_ok report
                         ++ [EvNewReader "docs" "pdf-input/report.pdf";
                             EvCreateTemp "report.pdf_*.tmp";
                             EvCopy "/tmp/report.pdf_*.tmp";
                             EvLog (LogDownloaded "docs" "pdf-input/report.pdf"
                                      "/tmp/report.pdf_*.tmp");
                             EvPdfOpen "/tmp/report.pdf_*.tmp";
                             EvLog (LogPageWarning 2 "/tmp/report.pdf_*.tmp"
                                      (errorString "unreadable page"));
                             EvLog (LogExtractedLength 11);
                             EvLog LogInitiating;
                             EvSynthesizeLongAudio
                               (Tts.request "Hello world" "42" "us-central1"
                                  "gs://docs/mp3-output/report.mp3"
                                  "en-US-Wavenet-D");
                             EvLog (LogStarted "op-1");
                             EvGetOperation "op-1"; EvLog (LogNotYet "op-1");
                             EvSleep 10;
                             EvGetOperation "op-1"; EvLog (LogNotYet "op-1");
                             EvSleep 10;
                             EvGetOperation "op-1";
                             EvRemove "/tmp/report.pdf_*.tmp";
                             EvLog (LogCleanedUp "/tmp/report.pdf_*.tmp")]))
    by (vm_compute; reflexivity).
  split; [exact Hrun|].
  exact (handler_errors_name_the_object
           (collaborators two_pages slow_failure) env_ok 3 background report
           start _ _ _ Hrun).
Defined.

Section HandlerFiles.
Variable C : Collaborators.
Variable env : gmap string string.

Lemma download_files (ctx : Context) (bucket name : string) (w w1 : World)
    (x : error + string * M unit) (evs1 : list event) :
  Storage.DownloadFileToTemp C ctx bucket name w = Some (x, w1, evs1) →
  (∀ q, os_CreateTemp C (Base name +:+ "_*.tmp") ≠ inr q →
        (q ∈ files w1 ↔ q ∈ files w))
  ∧ Forall (λ ev, ∀ q, ev = EvRemove q →
                       os_CreateTemp C (Base name +:+ "_*.tmp") = inr q) evs1
  ∧ length (List.filter is_removal evs1) ≤ 1
  ∧ (∀ path c, x = inr (path, c) →
       os_CreateTemp C (Base name +:+ "_*.tmp") = inr path
       ∧ List.filter is_removal evs1 = []).
Proof.
  unfold Storage.DownloadFileToTemp, bind, ctxDone, emit, log, ret,
    CreateTemp, Remove.
  assert (Hmem : ∀ (fs : gset string) p q, p ≠ q → (q ∈ fs ∪ {[p]} ↔ q ∈ fs)).
  { intros fs p q Hne. rewrite elem_of_union, elem_of_singleton.
    split; [intros [Hq|Hq]; [done|congruence]|by left]. }
  assert (Hmem' : ∀ (fs : gset string) p q,
            p ≠ q → (q ∈ (fs ∪ {[p]}) ∖ {[p]} ↔ q ∈ fs)).
  { intros fs p q Hne.
    rewrite elem_of_difference, elem_of_union, elem_of_singleton.
    split; [intros [[Hq|Hq] _]; [done|congruence]|].
    intros Hq. split; [by left|congruence]. }
  destruct (obj_NewReader C _ bucket name); cbn;
    [|destruct (os_CreateTemp C _) as [err|tmp] eqn:Htmp; cbn;
      [|destruct (io_Copy C tmp); cbn;
        [destruct (decide _); [destruct (os_Remove C tmp)|]; cbn|]]];
    intros [= <- <- <-]; cbn;
    (split; [intros q Hq; try done;
             first [apply Hmem | apply Hmem']; by intros ->|]);
    (split; [repeat (constructor; [by intros q [= <-]|]); constructor|]);
    (split; [lia|]); intros path c Hx; try discriminate Hx;
    by injection Hx as <- <-.
Qed.

Lemma cleanup_files (path : string) (w w' : World) (evs : list event) :
  Storage.cleanupFunc C path w = Some (tt, w', evs) →
  ∀ q, q ≠ path → (q ∈ files w' ↔ q ∈ files w).
Proof.
  unfold Storage.cleanupFunc, bind, Remove. intros Hrun q Hne.
  destruct (decide (path ∈ files w)); [destruct (os_Remove C path) as [err|]|].
  - destruct (IsNotExist err); cbn in Hrun; by injection Hrun as <- <-.
  - cbn in Hrun. injection Hrun as <- <-. cbn.
    rewrite elem_of_difference, elem_of_singleton.
    split; [by intros [Hq _]|by intros Hq].
  - cbn in Hrun. by injection Hrun as <- <-.
Qed.

(** X10.  The only file a run of the handler creates or removes is the
    temporary file that [os.CreateTemp] gave it for the object: every other
    file is there after the run exactly when it was there before, every
    removal among the events is a removal of that file, and there is at most
    one. *)
Theorem handler_touches_only_its_temp_file (n : nat) (ctx : Context)
    (e : StorageObjectData) (w w' : World) (r : option error)
    (evs : list event) :
  processPDFToSpeechHandler C env n ctx e w = Some (r, w', evs) →
  (∀ q, os_CreateTemp C (Base (Name e) +:+ "_*.tmp") ≠ inr q →
        (q ∈ files w' ↔ q ∈ files w))
  ∧ Forall (λ ev, ∀ q, ev = EvRemove q →
                       os_CreateTemp C (Base (Name e) +:+ "_*.tmp") = inr q)
      evs
  ∧ length (List.filter is_removal evs) ≤ 1.
Proof.
  assert (Hlogs : ∀ logs, Forall (λ ev, is_log ev = true) logs →
            Forall (λ ev, ∀ q, ev = EvRemove q →
                      os_CreateTemp C (Base (Name e) +:+ "_*.tmp") = inr q) logs
            ∧ List.filter is_removal logs = []).
  { intros logs Hl. split.
    - revert Hl. apply logs_quiet. intros l q Hq. discriminate Hq.
    - apply filter_quiet. revert Hl. by apply logs_quiet. }
  intros [(_ & -> & Hl)|[(_ & -> & Hl)|(_ & _ & _ & Hpath)]]%handler_cases;
    try (destruct (Hlogs evs Hl) as [Hrm Hnone]; rewrite Hnone;
         split; [done|]; split; [done|cbn; lia]).
  destruct (Hlogs _ (prelude_logs env e)) as [Hpre Hpre'].
  destruct Hpath as [err w1 evs1 Hdl
                    |path cleanup w1 evs1 r' w2 evs2 w3 l Hdl Hst Hc].
  - destruct (download_files _ _ _ _ _ _ _ Hdl) as (Hf & Hrm & Hone & _).
    split; [done|]. split; [by apply Forall_app|].
    by rewrite List.filter_app, Hpre'.
  - destruct (download_files _ _ _ _ _ _ _ Hdl) as (Hf & Hrm & _ & Hok).
    destruct (Hok path cleanup eq_refl) as [Htmp Hnone].
    apply stages_path_frame in Hst as (Hf2 & Hquiet & _).
    split; [|split].
    + intros q Hq. rewrite (cleanup_files _ _ _ _ Hc), Hf2; [by apply Hf|].
      intros ->. by apply Hq.
    + rewrite !Forall_app. repeat split; try done.
      * eapply Forall_impl; [exact Hquiet|]. intros ev [Hev _] q ->.
        discriminate Hev.
      * repeat constructor; intros q [= <-]; done.
    + rewrite !List.filter_app, Hpre', Hnone.
      rewrite (filter_quiet evs2)
        by (eapply Forall_impl; [exact Hquiet|]; by intros ev [? _]).
      cbn. lia.
Qed.

End HandlerFiles.

Lemma handler_touches_only_its_temp_file_witness :
  ∃ r w' evs,
    processPDFToSpeechHandler (collaborators two_pages slow_failure) env_ok 3
      background report (mkWorld {["/tmp/other.tmp"]} 0 0)
    = Some (r, w', evs)
    ∧ ("/tmp/other.tmp" ∈ files w'
       ↔ "/tmp/other.tmp" ∈ ({["/tmp/other.tmp"]} : gset string))
    ∧ length (List.filter is_removal evs) ≤ 1.
Proof.
  eexists _, _, _. split; [vm_compute; reflexivity|].
  edestruct (handler_touches_only_its_temp_file
               (collaborators two_pages slow_failure) env_ok 3 background
               report (mkWorld {["/tmp/other.tmp"]} 0 0))
    as (Hfiles & _ & Hone); [vm_compute; reflexivity|].
  split; [|exact Hone]. apply Hfiles. intros E. discriminate E.
Defined.

Section HandlerInputs.
Variable C : Collaborators.
Variable env : gmap string string.

Lemma stages_path_same_object (n : nat) (ctx : Context)
    (e e' : StorageObjectData) (path : string) (w1 w2 : World)
    (r : option error) (evs2 : list event) :
  Bucket e = Bucket e' → Name e = Name e' →
  stages_path C env n ctx e path w1 r w2 evs2 →
  stages_path C env n ctx e' path w1 r w2 evs2.
Proof.
  intros Hb Hn.
  assert (Huri : outputGCSURI e = outputGCSURI e')
    by (unfold outputGCSURI; by rewrite Hb, Hn).
  intros [err logs Hx|text logs Hx Hblank|text logs err w2' evs3 Hx Hblank Hs
         |text logs w2' evs3 Hx Hblank Hs];
    rewrite ?Huri in *; rewrite Hn; by econstructor.
Qed.

Lemma calls_of_logs (logs rest : list event) :
  Forall (λ ev, is_log ev = true) logs → calls_of (logs ++ rest) = calls_of rest.
Proof.
  induction 1 as [|ev evs Hev _ IH]; [done|].
  unfold calls_of in *. cbn. by rewrite Hev.
Qed.

(** X11.  The handler does not look at the content type of the
    notification: two notifications for the same bucket and name give the
    same result, the same world and the same calls to the collaborators,
    whatever their content types; only log lines differ. *)
Theorem content_type_is_ignored (n : nat) (ctx : Context)
    (e e' : StorageObjectData) (w w' : World) (r : option error)
    (evs : list event) :
  Bucket e = Bucket e' → Name e = Name e' →
  processPDFToSpeechHandler C env n ctx e w = Some (r, w', evs) →
  ∃ evs',
    processPDFToSpeechHandler C env n ctx e' w = Some (r, w', evs')
    ∧ calls_of evs' = calls_of evs.
Proof.
  intros Hb Hn Hrun.
  destruct (isPDF (Name e)) eqn:Hpdf; [destruct (inInputFolder (Name e)) eqn:Hin|].
  - destruct (configured_dec env) as [Hcfg|Hcfg].
    + apply handler_path_sound in Hrun; [|done..].
      assert (Hpath : ∃ rest,
                evs = prelude env e ++ rest
                ∧ handler_path C env n ctx e' w r w' (prelude env e' ++ rest)).
      { destruct Hrun as [err w1 evs1 Hdl
                         |path cleanup w1 evs1 r' w2 evs2 w3 l Hdl Hst Hc].
        - eexists. split; [reflexivity|]. rewrite Hn. constructor.
          by rewrite <- Hb, <- Hn.
        - eexists. split; [reflexivity|].
          eapply path_downloaded; [by rewrite <- Hb, <- Hn| |exact Hc].
          by apply (stages_path_same_object _ _ e e'). }
      destruct Hpath as (rest & -> & Hpath).
      apply handler_path_complete in Hpath; [|by rewrite <- Hn..|done].
      eexists. split; [exact Hpath|].
      by rewrite !calls_of_logs by apply prelude_logs.
    + rewrite (handler_config_error C env) in Hrun by done.
      injection Hrun as <- <- <-.
      rewrite (handler_config_error C env);
        [|by rewrite <- Hn|by rewrite <- Hn|done].
      eauto.
  - unfold isPDF, inInputFolder, processPDFToSpeechHandler in *.
    rewrite <- Hn, Hpdf, Hin. rewrite Hpdf, Hin in Hrun. cbn in *.
    injection Hrun as <- <- <-. eauto.
  - unfold isPDF, processPDFToSpeechHandler in *.
    rewrite <- Hn, Hpdf. rewrite Hpdf in Hrun. cbn in *.
    injection Hrun as <- <- <-. eauto.
Qed.

(** X12.  The output name keeps nothing of the folders under
    ["pdf-input/"] nor of the case of the extension: two accepted names with
    the same stem give the same output name, so that in one bucket their
    audio goes to the same object. *)
Theorem output_name_forgets_the_folder (dir1 dir2 stem ext1 ext2 : string) :
  (dir1 = "" ∨ HasSuffix dir1 "/" = true) →
  (dir2 = "" ∨ HasSuffix dir2 "/" = true) →
  contains "/" stem = false →
  ToLower ext1 = ".pdf" → ToLower ext2 = ".pdf" →
  outputAudioObjectName ("pdf-input/" +:+ dir1 +:+ stem +:+ ext1)
  = outputAudioObjectName ("pdf-input/" +:+ dir2 +:+ stem +:+ ext2)
  ∧ ∀ bucket ct1 ct2,
      outputGCSURI {| Bucket := bucket;
                      Name := "pdf-input/" +:+ dir1 +:+ stem +:+ ext1;
                      ContentType := ct1 |}
      = outputGCSURI {| Bucket := bucket;
                        Name := "pdf-input/" +:+ dir2 +:+ stem +:+ ext2;
                        ContentType := ct2 |}.
Proof.
  intros Hd1 Hd2 Hstem He1 He2.
  assert (Hdir : ∀ dir, dir = "" ∨ HasSuffix dir "/" = true →
            dir = "" ∨ ∃ d, dir = d +:+ "/").
  { intros dir [->|Hs]; [by left|right]. by apply HasSuffix_app. }
  assert (Hname :
    outputAudioObjectName ("pdf-input/" +:+ dir1 +:+ stem +:+ ext1)
    = outputAudioObjectName ("pdf-input/" +:+ dir2 +:+ stem +:+ ext2)).
  { unfold outputAudioObjectName.
    pose proof (trimmedBaseName_stem dir1 stem ext1 (Hdir _ Hd1) Hstem He1) as H1.
    pose proof (trimmedBaseName_stem dir2 stem ext2 (Hdir _ Hd2) Hstem He2) as H2.
    unfold inputFolderPrefix in H1, H2. by rewrite H1, H2. }
  split; [exact Hname|]. intros bucket ct1 ct2. unfold outputGCSURI. cbn.
  by rewrite Hname.
Qed.

End HandlerInputs.

Lemma content_type_is_ignored_witness :
  ∃ r w' evs evs',
    processPDFToSpeechHandler (collaborators two_pages slow_failure) env_ok 3
      background report start
    = Some (r, w', evs)
    ∧ processPDFToSpeechHandler (collaborators two_pages slow_failure) env_ok 3
        background
        {| Bucket := "docs"; Name := "pdf-input/report.pdf";
           ContentType := "image/png" |} start
      = Some (r, w', evs')
    ∧ calls_of evs' = calls_of evs.
Proof.
  eexists _, _, _.
  edestruct (content_type_is_ignored (collaborators two_pages slow_failure)
               env_ok 3 background report
               {| Bucket := "docs"; Name := "pdf-input/report.pdf";
                  ContentType := "image/png" |} start)
    as (evs' & Hrun' & Hcalls);
    [reflexivity | reflexivity | vm_compute; reflexivity |].
  exists evs'. split; [vm_compute; reflexivity|]. split; [exact Hrun'|exact Hcalls].
Defined.

Lemma output_name_forgets_the_folder_witness :
  ToLower ".pdf" = ".pdf" ∧ ToLower ".PDF" = ".pdf"
  ∧ outputAudioObjectName "pdf-input/2023/report.pdf"
    = outputAudioObjectName "pdf-input/2024/final/report.PDF".
Proof.
  split; [reflexivity|]. split; [reflexivity|].
  exact (proj1 (output_name_forgets_the_folder "2023/" "2024/final/" "report"
                  ".pdf" ".PDF" (or_intror eq_refl) (or_intror eq_refl)
                  eq_refl eq_refl eq_refl)).
Defined.

Section HandlerStages.
Variable C : Collaborators.
Variable env : gmap string string.

(** The run of the handler up to the synthesis, on a document whose text is
    not blank: what it takes to build the ways through the stages. *)
Lemma reaches_synthesis (n : nat) (ctx : Context) (e : StorageObjectData)
    (w w1 : World) (path : string) (cleanup : M unit) (evs1 : list event)
    (pages : list (error + string)) :
  Storage.DownloadFileToTemp C ctx (Bucket e) (Name e) w
    = Some (inr (path, cleanup), w1, evs1) →
  pdf_Open C path = inr pages →
  Pdfprocessor.ExtractTextFromPDFFilePath C path w1
  = Some (inr (readable_text pages), w1,
          EvPdfOpen path :: page_warnings path 1 pages)
  ∧ now w1 = now w
  ∧ List.filter is_removal evs1 = []
  ∧ Forall (λ ev, is_synthesis ev = false) evs1.
Proof.
  intros Hdl Hopen.
  destruct (DownloadFileToTemp_ok _ _ _ _ _ _ _ _ _ Hdl) as (_ & -> & ->).
  split; [by apply ExtractText_run|]. by repeat constructor.
Qed.

(** X13.  When the backend refuses the request, the handler returns the
    failure wrapped twice, by the poller and by itself, with both messages in
    front of the cause; no status is fetched and nothing sleeps, whatever
    the number of rounds allowed, and the temporary file is still removed. *)
Theorem refused_request_is_reported (n : nat) (ctx : Context)
    (e : StorageObjectData) (w w1 : World) (path : string) (cleanup : M unit)
    (evs1 : list event) (pages : list (error + string)) (cause : error) :
  isPDF (Name e) = true → inInputFolder (Name e) = true → configured env →
  Storage.DownloadFileToTemp C ctx (Bucket e) (Name e) w
    = Some (inr (path, cleanup), w1, evs1) →
  pdf_Open C path = inr pages →
  TrimSpace (readable_text pages) ≠ "" →
  client_SynthesizeLongAudio C (cancelled ctx (now w))
    (Tts.request (readable_text pages) (Getenv env "PROJECT_NUMBER")
       (Getenv env "GCP_LOCATION") (outputGCSURI e) (voice env))
    = inl cause →
  ∃ w' evs,
    processPDFToSpeechHandler C env n ctx e w
    = Some (Some (wrapError
                    ("failed to synthesize speech for " +:+ Name e
                     +:+ ": failed to initiate long audio synthesis: "
                     +:+ Error cause)
                    (wrapError
                       ("failed to initiate long audio synthesis: "
                        +:+ Error cause) cause)),
            w', evs)
    ∧ fetches evs = 0 ∧ sleeps evs = 0
    ∧ List.filter is_removal evs = [EvRemove path].
Proof.
  intros Hpdf Hin Hcfg Hdl Hopen Htext Hsub.
  destruct (reaches_synthesis n ctx e w w1 path cleanup evs1 pages Hdl Hopen)
    as (Hx & Hnow & Hrm1 & Hquiet1).
  destruct (cleanupFunc_run C path w1) as (w3 & l & Hc & _).
  assert (Hs : Tts.SynthesizeLongAudio C n ctx (readable_text pages)
                 (Getenv env "PROJECT_NUMBER") (Getenv env "GCP_LOCATION")
                 (outputGCSURI e) (voice env) w1
               = Some (Some (wrapError
                               ("failed to initiate long audio synthesis: "
                                +:+ Error cause) cause),
                       w1,
                       [EvLog LogInitiating;
                        EvSynthesizeLongAudio
                          (Tts.request (readable_text pages)
                             (Getenv env "PROJECT_NUMBER")
                             (Getenv env "GCP_LOCATION") (outputGCSURI e)
                             (voice env))])).
  { by rewrite SynthesizeLongAudio_run, Hnow, Hsub. }
  pose proof (path_downloaded C env n ctx e w path cleanup w1 evs1 _ _ _ w3 l
                Hdl (stage_synthesis_error C env n ctx e path w1 _ _ _ _ _
                       Hx Htext Hs) Hc) as Hpath.
  apply handler_path_complete in Hpath; [|done..].
  eexists _, _. split; [exact Hpath|].
  destruct (logs_count _ (prelude_logs env e)) as [Hs0 Hf0].
  assert (Hw : Forall (λ ev, is_log ev = true) (page_warnings path 1 pages)).
  { apply ExtractText_events in Hx as (_ & logs & [= <-] & Hlogs). exact Hlogs. }
  destruct (logs_count _ Hw) as [Hs2 Hf2].
  assert (Hcount : ∀ evs0, Forall (λ ev, is_synthesis ev = false) evs0 →
            sleeps evs0 = 0 ∧ fetches evs0 = 0).
  { induction 1 as [|ev evs0 Hev _ IH]; [done|].
    destruct ev; try discriminate Hev; exact IH. }
  destruct (Hcount _ Hquiet1) as [Hs1 Hf1].
  match goal with
  | |- context [EvPdfOpen path :: ?ws ++ ?tl] =>
      change (EvPdfOpen path :: ws ++ tl) with ([EvPdfOpen path] ++ ws ++ tl)
  end.
  rewrite !fetches_app, !sleeps_app, !List.filter_app, Hs0, Hf0, Hs1, Hf1,
    Hs2, Hf2, Hrm1.
  rewrite (filter_quiet (prelude env e))
    by (apply not_removal_of_log, prelude_logs).
  rewrite (filter_quiet (page_warnings path 1 pages))
    by (by apply not_removal_of_log).
  by repeat split.
Qed.

(** X14.  A document that opens but of which no page can be read is not an
    error: the extraction gives the empty text, and the handler returns
    [nil] without any synthesis; the warnings for the pages and the line that
    says there is no text are all that tells. *)
Theorem unreadable_document_is_silent_success (n : nat) (ctx : Context)
    (e : StorageObjectData) (w w1 : World) (path : string) (cleanup : M unit)
    (evs1 : list event) (pages : list (error + string)) :
  isPDF (Name e) = true → inInputFolder (Name e) = true → configured env →
  Storage.DownloadFileToTemp C ctx (Bucket e) (Name e) w
    = Some (inr (path, cleanup), w1, evs1) →
  pdf_Open C path = inr pages →
  Forall (λ p, ∃ err, p = inl err) pages →
  ∃ w' l evs,
    evs = prelude env e ++ evs1
          ++ (EvPdfOpen path :: page_warnings path 1 pages
              ++ [EvLog (LogNoText (Name e))])
          ++ [EvRemove path; EvLog l]
    ∧ processPDFToSpeechHandler C env n ctx e w = Some (None, w', evs)
    ∧ Forall (λ ev, is_synthesis ev = false) evs
    ∧ length (page_warnings path 1 pages) = length pages.
Proof.
  intros Hpdf Hin Hcfg Hdl Hopen Hbad.
  destruct (reaches_synthesis n ctx e w w1 path cleanup evs1 pages Hdl Hopen)
    as (Hx & _ & _ & Hquiet1).
  assert (Htext : readable_text pages = "").
  { clear -Hbad. induction Hbad as [|p pages [err ->] _ IH]; [reflexivity|].
    exact IH. }
  destruct (cleanupFunc_run C path w1) as (w3 & l & Hc & _).
  assert (Hw : Forall (λ ev, is_log ev = true) (page_warnings path 1 pages)).
  { apply ExtractText_events in Hx as (_ & logs & [= <-] & Hlogs). exact Hlogs. }
  rewrite Htext in Hx.
  pose proof (path_downloaded C env n ctx e w path cleanup w1 evs1 _ _ _ w3 l
                Hdl (stage_no_text C env n ctx e path w1 "" _ Hx eq_refl) Hc)
    as Hpath.
  apply handler_path_complete in Hpath; [|done..].
  exists w3, l. eexists. split; [reflexivity|]. split; [exact Hpath|]. split.
  - rewrite !Forall_app. split; [|split; [done|split]].
    + eapply logs_quiet; [|apply prelude_logs]. done.
    + constructor; [done|]. apply Forall_app. split.
      * by eapply logs_quiet.
      * by repeat constructor.
    + by repeat constructor.
  - clear -Hbad. unfold page_warnings. generalize 1.
    induction Hbad as [|p pages [err ->] _ IH]; intros i; [reflexivity|].
    cbn. by rewrite IH.
Qed.

(** X15.  The handler has no time limit either: on a document with text,
    when the backend accepts the request and the status fetches the poller
    makes, one every ten seconds from the time the handler was called, each
    with the context as it is at that time, keep finding the operation not
    done, the handler is still running after any number [n] of rounds, and so
    has not removed the temporary file. *)
Theorem handler_waits_for_the_poller (n : nat) (ctx : Context)
    (e : StorageObjectData) (w w1 : World) (path op : string)
    (cleanup : M unit) (evs1 : list event) (pages : list (error + string)) :
  isPDF (Name e) = true → inInputFolder (Name e) = true → configured env →
  Storage.DownloadFileToTemp C ctx (Bucket e) (Name e) w
    = Some (inr (path, cleanup), w1, evs1) →
  pdf_Open C path = inr pages →
  TrimSpace (readable_text pages) ≠ "" →
  client_SynthesizeLongAudio C (cancelled ctx (now w))
    (Tts.request (readable_text pages) (Getenv env "PROJECT_NUMBER")
       (Getenv env "GCP_LOCATION") (outputGCSURI e) (voice env))
    = inr op →
  (∀ i, i < n →
     ∃ o, client_GetOperation C (cancelled ctx (now w + 10 * i)) op
            (polls w + i) = inr o ∧ Done o = false) →
  processPDFToSpeechHandler C env n ctx e w = None.
Proof.
  intros Hpdf Hin Hcfg Hdl Hopen Htext Hsub Hn.
  destruct (reaches_synthesis n ctx e w w1 path cleanup evs1 pages Hdl Hopen)
    as (Hx & Hnow & _ & _).
  assert (Hpolls : polls w1 = polls w).
  { by destruct (DownloadFileToTemp_ok _ _ _ _ _ _ _ _ _ Hdl) as (_ & -> & _). }
  assert (Hs : Tts.SynthesizeLongAudio C n ctx (readable_text pages)
                 (Getenv env "PROJECT_NUMBER") (Getenv env "GCP_LOCATION")
                 (outputGCSURI e) (voice env) w1 = None).
  { rewrite SynthesizeLongAudio_run, Hnow, Hsub.
    rewrite poll_loop_still_running; [reflexivity|].
    by rewrite Hnow, Hpolls. }
  destruct (processPDFToSpeechHandler C env n ctx e w)
    as [[[r w'] evs]|] eqn:Hrun; [exfalso|reflexivity].
  apply handler_path_sound in Hrun; [|done..].
  destruct Hrun as [err w1' evs1' Hdl'
                   |path' cleanup' w1' evs1' r' w2 evs2 w3 l Hdl' Hst Hc];
    rewrite Hdl in Hdl'; [discriminate Hdl'|].
  injection Hdl' as <- <- <- <-.
  destruct Hst as [err logs Hx'|text logs Hx' Hblank
                  |text logs err w2' evs3 Hx' Hblank Hs'
                  |text logs w2' evs3 Hx' Hblank Hs'];
    rewrite Hx in Hx'; try discriminate Hx';
    injection Hx' as <- <-; try done;
    rewrite Hs in Hs'; discriminate Hs'.
Qed.

End HandlerStages.

Lemma refused_request_is_reported_witness :
  ∃ w' evs,
    processPDFToSpeechHandler
      (faulty None None (inl (errorString "permission denied")) two_pages)
      env_ok 0 background report start
    = Some (Some (wrapError
                    "failed to synthesize speech for pdf-input/report.pdf: failed to initiate long audio synthesis: permission denied"
                    (wrapError
                       "failed to initiate long audio synthesis: permission denied"
                       (errorString "permission denied"))),
            w', evs)
    ∧ fetches evs = 0 ∧ sleeps evs = 0
    ∧ List.filter is_removal evs = [EvRemove "/tmp/report.pdf_*.tmp"].
Proof.
  assert (Hcfg : configured env_ok) by (split; intros E; discriminate E).
  eapply (refused_request_is_reported
            (faulty None None (inl (errorString "permission denied")) two_pages)
            env_ok 0 background report start _ _ _ _ two_pages
            (errorString "permission denied") eq_refl eq_refl Hcfg).
  - vm_compute. reflexivity.
  - reflexivity.
  - intros E. discriminate E.
  - reflexivity.
Defined.

Lemma unreadable_document_is_silent_success_witness :
  ∃ w' evs,
    processPDFToSpeechHandler (faulty None None (inr "op-1") unreadable_pages)
      env_ok 0 background report start
    = Some (None, w', evs)
    ∧ Forall (λ ev, is_synthesis ev = false) evs.
Proof.
  assert (Hcfg : configured env_ok) by (split; intros E; discriminate E).
  edestruct (unreadable_document_is_silent_success
               (faulty None None (inr "op-1") unreadable_pages) env_ok 0
               background report start)
    as (w' & l & evs & _ & Hrun & Hquiet & _);
    [reflexivity | reflexivity | exact Hcfg | vm_compute; reflexivity
    | reflexivity | |].
  - repeat constructor; eexists; reflexivity.
  - exists w', evs. split; [exact Hrun|exact Hquiet].
Defined.

Lemma handler_waits_for_the_poller_witness :
  processPDFToSpeechHandler (collaborators two_pages attentive) env_ok
    1000 background report start
  = None.
Proof.
  assert (Hcfg : configured env_ok) by (split; intros E; discriminate E).
  eapply (handler_waits_for_the_poller
            (collaborators two_pages attentive) env_ok 1000 background report
            start _ _ "op-1" _ _ two_pages eq_refl eq_refl Hcfg).
  - vm_compute. reflexivity.
  - reflexivity.
  - intros E. discriminate E.
  - reflexivity.
  - intros i _. exists (notDone "op-1"). split; reflexivity.
Defined.
